(** * Financial_Report_generator: the upload controller and the pointer trail
    of [frontend/src/App.tsx].

    The development embeds the client logic of the single page component:
    - [JsString]: the [String.prototype] methods the component calls;
    - [Format]: [formatBytes];
    - [Json]: values returned by [response.json()] and [JSON.stringify];
    - [Upload]: the state of the component, [handleFileChange] and
      [handleSubmit], and the event system of the rendered form;
    - [Trail]: the per-frame update [animate] of the cursor trail, over
      binary64 and over the reals;
    - [Claimed]: two readings of a response as the specification words them;
    - [Samples]: concrete files, responses and pointer targets.
    The properties follow the definitions. *)

From Stdlib Require Import Bool Arith NArith ZArith List String Ascii Lia.
From Stdlib Require Import DecimalString.
From Stdlib Require DecimalPos.
From Stdlib Require Import Uint63 PrimFloat.
From Stdlib Require Import Reals Lra.
Import ListNotations.

Local Open Scope string_scope.

(** ** Strings

    A JavaScript string is a sequence of UTF-16 code units.  The model keeps
    the code units [0..255], which is what [Ascii.ascii] holds; the methods
    below are the ECMAScript ones restricted to that range. *)
Module JsString.

Definition code (c : ascii) : N := N_of_ascii c.

(** [toLowerCase] on one code unit: [A-Z] and the Latin-1 capitals
    [U+00C0..U+00DE] except the multiplication sign [U+00D7]. *)
Definition lower_char (c : ascii) : ascii :=
  let n := code c in
  if ((65 <=? n) && (n <=? 90)
      || (192 <=? n) && (n <=? 222) && negb (n =? 215))%N
  then ascii_of_N (n + 32) else c.

Fixpoint toLowerCase (s : string) : string :=
  match s with
  | EmptyString => EmptyString
  | String c s' => String (lower_char c) (toLowerCase s')
  end.

(** [s.endsWith(suffix)]: [suffix] is [s] or a suffix of the tail of [s]. *)
Fixpoint endsWith (s suffix : string) : bool :=
  if String.eqb s suffix then true
  else match s with
       | EmptyString => false
       | String _ s' => endsWith s' suffix
       end.

(** [s.includes(sub)]. *)
Fixpoint includes (s sub : string) : bool :=
  if String.prefix sub s then true
  else match s with
       | EmptyString => false
       | String _ s' => includes s' sub
       end.

(** White space and line terminators of ECMAScript below [U+0100]:
    TAB, LF, VT, FF, CR, SP and NBSP. *)
Definition is_white (c : ascii) : bool :=
  let n := code c in
  ((9 <=? n) && (n <=? 13) || (n =? 32) || (n =? 160))%N.

Fixpoint trimStart (s : string) : string :=
  match s with
  | EmptyString => EmptyString
  | String c s' => if is_white c then trimStart s' else s
  end.

Fixpoint trimEnd (s : string) : string :=
  match s with
  | EmptyString => EmptyString
  | String c s' =>
      match trimEnd s' with
      | EmptyString => if is_white c then EmptyString else String c EmptyString
      | t => String c t
      end
  end.

Definition trim (s : string) : string := trimEnd (trimStart s).

(** Truthiness of a string: the empty string is the only falsy one. *)
Definition truthy (s : string) : bool :=
  match s with EmptyString => false | _ => true end.

(** [s.split(sep)] for a non-empty separator.  [skip] counts the code units
    of a separator that was just recognised and is being stepped over;
    [cur] holds the current piece in reverse. *)
Fixpoint rev_string (acc s : string) : string :=
  match s with
  | EmptyString => acc
  | String c s' => rev_string (String c acc) s'
  end.

Fixpoint split_go (sep s : string) (skip : nat) (cur : string) : list string :=
  match s with
  | EmptyString => [rev_string EmptyString cur]
  | String c s' =>
      match skip with
      | S k => split_go sep s' k cur
      | O =>
          if String.prefix sep s
          then rev_string EmptyString cur
                 :: split_go sep s' (String.length sep - 1) EmptyString
          else split_go sep s' 0 (String c cur)
      end
  end.

Definition split (s sep : string) : list string := split_go sep s 0 EmptyString.

(** [s.replace] with the global pattern matching one double quote and the
    empty replacement: every double-quote code unit is removed. *)
Definition dquote : ascii := ascii_of_N 34.

Fixpoint remove_dquotes (s : string) : string :=
  match s with
  | EmptyString => EmptyString
  | String c s' =>
      if Ascii.eqb c dquote then remove_dquotes s' else String c (remove_dquotes s')
  end.

(** Decimal text of a non-negative integer, as a template literal prints it. *)
Definition of_N (n : N) : string := NilEmpty.string_of_uint (N.to_uint n).

End JsString.

(** ** [formatBytes] *)
Module Format.

Definition sizes : list string := ["B"; "KB"; "MB"; "GB"].

(** [x.toFixed(2)] for the non-negative rational [num / den]: the integer
    [n] with [n / 100] closest to [x], the larger one on a tie, printed with
    two fraction digits. *)
Definition toFixed2 (num den : N) : string :=
  let n := ((2 * 100 * num + den) / (2 * den))%N in
  let frac := (n mod 100)%N in
  JsString.of_N (n / 100) ++ "."
    ++ (if (frac <? 10)%N then "0" else "") ++ JsString.of_N frac.

(** [formatBytes] on a byte count.  [Math.floor(Math.log(bytes) / Math.log(k))]
    is the integer logarithm of [bytes] in base [1024], that is
    [log2 bytes / 10], as long as the binary64 quotient of the two
    logarithms does not round up to the next integer; it does for sizes
    just below a high power of [1024] (at [2^50 - 1] the program takes
    [i = 5] where the model takes [i = 4]), and the properties below use
    the model on [MAX_FILE_SIZE] and on sizes below [1024] only.
    [bytes / Math.pow(k, i)] divides by a power of two and is exact in
    binary64 for every size below [2^53].  [sizes[i]] is [undefined] from
    [i = 4] on, which the template prints as such. *)
Definition formatBytes (bytes : N) : string :=
  if (bytes =? 0)%N then "0 B"
  else
    let k := 1024%N in
    let i := N.to_nat (N.log2 bytes / 10) in
    toFixed2 bytes (k ^ N.of_nat i) ++ " " ++ nth i sizes "undefined".

End Format.

(** ** JSON values

    What [await response.json()] returns and what [JSON.stringify] prints.
    Numbers are binary64 values in the program; the two things the component
    does with one are taken as parameters of the section: its truthiness
    (false for [0] and [-0]) and the text [JSON.stringify] gives it.  An
    object is the list of its own properties in enumeration order. *)
Module Json.

Section WithNumber.

Variable number : Type.
Variable number_truthy : number -> bool.
Variable number_text : number -> string.

#[warnings="-register-all"]
Inductive value : Type :=
| JNull
| JBool (b : bool)
| JNumber (n : number)
| JString (s : string)
| JArray (items : list value)
| JObject (props : list (string * value)).

(** [typeof v === "string"] *)
Definition is_string (v : value) : bool :=
  match v with JString _ => true | _ => false end.

(** ToBoolean *)
Definition truthy (v : value) : bool :=
  match v with
  | JNull => false
  | JBool b => b
  | JNumber n => number_truthy n
  | JString s => JsString.truthy s
  | JArray _ | JObject _ => true
  end.

Fixpoint lookup (key : string) (props : list (string * value)) : option value :=
  match props with
  | [] => None
  | (k, v) :: rest => if String.eqb k key then Some v else lookup key rest
  end.

(** [v?.detail]: [None] stands for [undefined].  Only an object can own
    the property; [null] is short-circuited by the optional chaining and
    primitives and arrays do not have it. *)
Definition detail (v : value) : option value :=
  match v with
  | JObject props => lookup "detail" props
  | _ => None
  end.

Definition hex_digit (n : N) : ascii :=
  if (n <? 10)%N then ascii_of_N (48 + n) else ascii_of_N (87 + n).

(** QuoteJSONString on one code unit. *)
Definition escape_char (c : ascii) : string :=
  let n := JsString.code c in
  if (n =? 34)%N then String "\" (String JsString.dquote "")
  else if (n =? 92)%N then "\\"
  else if (n =? 8)%N then "\b"
  else if (n =? 12)%N then "\f"
  else if (n =? 10)%N then "\n"
  else if (n =? 13)%N then "\r"
  else if (n =? 9)%N then "\t"
  else if (n <? 32)%N
       then "\u00" ++ String (hex_digit (n / 16)) (String (hex_digit (n mod 16)) "")
       else String c "".

Fixpoint escape (s : string) : string :=
  match s with
  | EmptyString => EmptyString
  | String c s' => escape_char c ++ escape s'
  end.

Definition quote (s : string) : string :=
  String JsString.dquote (escape s) ++ String JsString.dquote "".

(** [JSON.stringify(v)] with no replacer and no indentation. *)
Fixpoint stringify (v : value) : string :=
  match v with
  | JNull => "null"
  | JBool true => "true"
  | JBool false => "false"
  | JNumber n => number_text n
  | JString s => quote s
  | JArray items =>
      "[" ++ (fix elements (l : list value) : string :=
                match l with
                | [] => ""
                | a :: l' =>
                    match l' with
                    | [] => stringify a
                    | _ :: _ => stringify a ++ "," ++ elements l'
                    end
                end) items ++ "]"
  | JObject props =>
      "{" ++ (fix members (l : list (string * value)) : string :=
                match l with
                | [] => ""
                | (k, a) :: l' =>
                    match l' with
                    | [] => quote k ++ ":" ++ stringify a
                    | _ :: _ => quote k ++ ":" ++ stringify a ++ "," ++ members l'
                    end
                end) props ++ "}"
  end.

End WithNumber.

Arguments JNull {number}.
Arguments JBool {number} b.
Arguments JNumber {number} n.
Arguments JString {number} s.
Arguments JArray {number} items.
Arguments JObject {number} props.
Arguments is_string {number} v.
Arguments lookup {number} key props.
Arguments detail {number} v.

(** Integer-valued numbers of absolute value below [10^21] (from there on
    [JSON.stringify] prints an exponent), for concrete payloads. *)
Definition Z_truthy (n : Z) : bool := negb (n =? 0)%Z.
Definition Z_text (n : Z) : string :=
  match n with
  | Zneg p => "-" ++ JsString.of_N (Npos p)
  | _ => JsString.of_N (Z.to_N n)
  end.

End Json.

(** ** The upload controller *)
Module Upload.

Import Json JsString.

Definition MAX_FILE_SIZE : N := 15 * 1024 * 1024.

(** The two fields of a DOM [File] the component reads. *)
Record File : Type := { name : string; size : N }.

Inductive UploadState : Type := Idle | Uploading | Success | Error.

Record UploadError : Type := { message : string; details : option string }.

(** The state hooks of [App] that the handlers write, and [inputFile], the
    file held by the file input control ([event.target.value], emptied by
    assigning the empty string). *)
Record App : Type := {
  selectedFile : option File;
  state : UploadState;
  error : option UploadError;
  successMessage : option string;
  inputFile : option File
}.

Definition setSelectedFile (v : option File) (a : App) : App :=
  {| selectedFile := v; state := state a; error := error a;
     successMessage := successMessage a; inputFile := inputFile a |}.

Definition setState (v : UploadState) (a : App) : App :=
  {| selectedFile := selectedFile a; state := v; error := error a;
     successMessage := successMessage a; inputFile := inputFile a |}.

Definition setError (v : option UploadError) (a : App) : App :=
  {| selectedFile := selectedFile a; state := state a; error := v;
     successMessage := successMessage a; inputFile := inputFile a |}.

Definition setSuccessMessage (v : option string) (a : App) : App :=
  {| selectedFile := selectedFile a; state := state a; error := error a;
     successMessage := v; inputFile := inputFile a |}.

Definition setInputFile (v : option File) (a : App) : App :=
  {| selectedFile := selectedFile a; state := state a; error := error a;
     successMessage := successMessage a; inputFile := v |}.

(** [{ message }] *)
Definition error_of (m : string) : option UploadError :=
  Some {| message := m; details := None |}.

(** The component as mounted. *)
Definition initial : App :=
  {| selectedFile := None; state := Idle; error := None;
     successMessage := None; inputFile := None |}.

(** The test on the file name in [handleFileChange]. *)
Definition extension_ok (file_name : string) : bool :=
  endsWith (toLowerCase file_name) ".xml"
  || endsWith (toLowerCase file_name) ".xbrl".

(** [handleFileChange].  [chosen] is [event.target.files?.[0]]: the control
    holds it when the change event fires. *)
Definition handleFileChange (chosen : option File) (a : App) : App :=
  let a := setInputFile chosen a in
  let a := setError None a in
  let a := setSuccessMessage None a in
  match chosen with
  | None => setSelectedFile None a
  | Some file =>
      if negb (endsWith (toLowerCase (name file)) ".xml")
         && negb (endsWith (toLowerCase (name file)) ".xbrl")
      then
        let a := setError (error_of "Only .xml or .xbrl files are supported.") a in
        setInputFile None a
      else if (MAX_FILE_SIZE <? size file)%N
      then
        let a := setError
                   (error_of ("File exceeds the "
                                ++ Format.formatBytes MAX_FILE_SIZE ++ " limit.")) a in
        setInputFile None a
      else setSelectedFile (Some file) a
  end.

(** *** Responses and effects *)

(** A value caught by [catch]: an [Error] with its message, or anything
    else. *)
Inductive Thrown : Type :=
| ThrownError (msg : string)
| ThrownOther.

Inductive outcome (A : Type) : Type :=
| Returned (a : A)
| Throws (e : Thrown).
Arguments Returned {A} a.
Arguments Throws {A} e.

Definition Blob : Type := list Byte.byte.

Inductive Effect : Type :=
| Fetch (url method field : string) (file : File)
| ConsoleWarn
| ConsoleError
| Download (filename : string) (blob : Blob).

Section WithNumber.

Variable number : Type.
Variable number_truthy : number -> bool.
Variable number_text : number -> string.

Let value := Json.value number.

(** A [Response]: the status, the header list, and what each way of
    reading the body gives when awaited. *)
Record Response : Type := {
  status : N;
  headers : list (string * string);
  json : outcome value;
  text : outcome string;
  blob : outcome Blob
}.

(** [response.ok] *)
Definition ok (r : Response) : bool :=
  ((200 <=? status r) && (status r <=? 299))%N.

Fixpoint join (sep : string) (l : list string) : string :=
  match l with
  | [] => ""
  | v :: l' => match l' with [] => v | _ :: _ => v ++ sep ++ join sep l' end
  end.

(** [response.headers.get(name)]: names compare without case and the
    values of a repeated header are joined; [None] stands for [null]. *)
Definition headers_get (r : Response) (header : string) : option string :=
  match filter (fun kv => String.eqb (toLowerCase (fst kv)) (toLowerCase header))
               (headers r) with
  | [] => None
  | found => Some (join ", " (map snd found))
  end.

Definition generic_message (r : Response) : string :=
  "Failed to convert XBRL file (status " ++ of_N (status r) ++ ")".

(** The branch for a JSON body, after [payload] was parsed. *)
Definition json_message (r : Response) (payload : value) : string :=
  match payload with
  | JString p =>
      if JsString.truthy (trim p) then trim p else generic_message r
  | _ =>
      match Json.detail payload with
      | Some d =>
          if Json.truthy number number_truthy d
          then match d with
               | JString t => t
               | _ => Json.stringify number number_text d
               end
          else generic_message r
      | None => generic_message r
      end
  end.

(** [response.headers.get("content-type") ?? ""] *)
Definition contentType (r : Response) : string :=
  match headers_get r "content-type" with Some v => v | None => "" end.

(** The block run for [!response.ok]: the message that is thrown, with
    the effects of the inner [try]. *)
Definition error_message (r : Response) : string * list Effect :=
  let message := generic_message r in
  if includes (contentType r) "application/json"
  then match json r with
       | Returned payload => (json_message r payload, [])
       | Throws _ => (message, [ConsoleWarn])
       end
  else match text r with
       | Returned body =>
           let t := trim body in
           (if JsString.truthy t then t else message, [])
       | Throws _ => (message, [ConsoleWarn])
       end.

(** The name read from [Content-Disposition]; [None] stands for
    [undefined]. *)
Definition filename (r : Response) : option string :=
  match headers_get r "Content-Disposition" with
  | None => None
  | Some h =>
      match nth_error (split h "filename=") 1 with
      | None => None
      | Some fragment => Some (remove_dquotes fragment)
      end
  end.

(** [filename || `xbrl-export-${Date.now()}.xlsx`] *)
Definition download_name (now : N) (r : Response) : string :=
  match filename r with
  | Some f => if JsString.truthy f then f else "xbrl-export-" ++ of_N now ++ ".xlsx"
  | None => "xbrl-export-" ++ of_N now ++ ".xlsx"
  end.

(** [handleSubmit] up to [await fetch(...)]: the new state and the
    requests issued. *)
Definition handleSubmit_begin (a : App) : App * list Effect :=
  let cleared := setSuccessMessage None (setError None a) in
  match selectedFile a with
  | None =>
      (setError (error_of "Please choose an XBRL file before uploading.") cleared, [])
  | Some file =>
      (setState Uploading cleared,
       [Fetch "/api/v1/files/xbrl-to-excel" "POST" "file" file])
  end.

(** The body of the outer [try] once [fetch] has settled: the download
    it performs, or what it throws. *)
Definition try_body (now : N) (fetched : outcome Response)
  : outcome (string * Blob) * list Effect :=
  match fetched with
  | Throws e => (Throws e, [])
  | Returned response =>
      if negb (ok response)
      then let '(m, effects) := error_message response in
           (Throws (ThrownError m), effects)
      else match blob response with
           | Throws e => (Throws e, [])
           | Returned b => (Returned (download_name now response, b), [])
           end
  end.

(** [handleSubmit] from the point where [fetch] settles.  [now] is
    [Date.now()]. *)
Definition handleSubmit_settle (now : N) (fetched : outcome Response) (a : App)
  : App * list Effect :=
  match try_body now fetched with
  | (Returned (file_name, b), effects) =>
      (setState Success
         (setSuccessMessage (Some "Excel workbook downloaded successfully.") a),
       (effects ++ [Download file_name b])%list)
  | (Throws e, effects) =>
      let m := match e with
               | ThrownError msg => msg
               | ThrownOther => "Unexpected error occurred."
               end in
      (setState Error (setError (error_of m) a), (effects ++ [ConsoleError])%list)
  end.

(** One whole call of [handleSubmit], the request answered by
    [fetched]. *)
Definition handleSubmit (now : N) (fetched : outcome Response) (a : App)
  : App * list Effect :=
  let '(a1, requests) := handleSubmit_begin a in
  match requests with
  | [] => (a1, [])
  | _ :: _ =>
      let '(a2, effects) := handleSubmit_settle now fetched a1 in
      (a2, (requests ++ effects)%list)
  end.

(** *** The rendered form

    The submit button and the file input carry
    [disabled={state === "uploading"}]. *)
Definition disabled (a : App) : bool :=
  match state a with Uploading => true | _ => false end.

(** The page with its pending requests. *)
Record Page : Type := { app : App; in_flight : nat }.

Definition mounted : Page := {| app := initial; in_flight := 0 |}.

(** Events the form delivers to the handlers: a change of the file input
    and a submit, both only while the controls are enabled, and the
    settling of a pending [fetch]. *)
Inductive step : Page -> Page -> Prop :=
| step_change (p : Page) (chosen : option File) :
    disabled (app p) = false ->
    step p {| app := handleFileChange chosen (app p); in_flight := in_flight p |}
| step_submit (p : Page) :
    disabled (app p) = false ->
    step p {| app := fst (handleSubmit_begin (app p));
              in_flight := in_flight p + List.length (snd (handleSubmit_begin (app p))) |}
| step_settle (p : Page) (now : N) (fetched : outcome Response) (n : nat) :
    in_flight p = S n ->
    step p {| app := fst (handleSubmit_settle now fetched (app p)); in_flight := n |}.

Inductive reachable : Page -> Prop :=
| reach_mounted : reachable mounted
| reach_step (p q : Page) : reachable p -> step p q -> reachable q.

End WithNumber.

Arguments status {number} r.
Arguments headers {number} r.
Arguments json {number} r.
Arguments text {number} r.
Arguments blob {number} r.
Arguments ok {number} r.
Arguments headers_get {number} r header.
Arguments generic_message {number} r.
Arguments contentType {number} r.
Arguments filename {number} r.
Arguments download_name {number} now r.
Arguments json_message {number} number_truthy number_text r payload.
Arguments error_message {number} number_truthy number_text r.
Arguments try_body {number} number_truthy number_text now fetched.
Arguments handleSubmit_settle {number} number_truthy number_text now fetched a.
Arguments handleSubmit {number} number_truthy number_text now fetched a.
Arguments step {number} number_truthy number_text p q.
Arguments reachable {number} number_truthy number_text p.

End Upload.

(** ** The cursor trail *)
Module Trail.

Definition TRAIL_LENGTH : nat := 6.

(** The arithmetic [animate] uses: the four operations it applies to
    numbers and the reading of a decimal literal [m * 10^-e] (the loop
    index is the literal with [e = 0]).  The program runs on binary64
    ([binary64] below); [exact] is the same interface on the reals. *)
Record Arithmetic : Type := {
  num :> Type;
  add : num -> num -> num;
  sub : num -> num -> num;
  mul : num -> num -> num;
  max : num -> num -> num;
  dec : Z -> nat -> num
}.

(** [Math.max] on binary64: NaN if an argument is NaN, and [+0] above
    [-0]. *)
Definition float_max (a b : float) : float :=
  if PrimFloat.is_nan a then a
  else if PrimFloat.is_nan b then b
  else if PrimFloat.ltb a b then b
  else if PrimFloat.ltb b a then a
  else if PrimFloat.get_sign a then b else a.

(** A decimal literal is the binary64 nearest to its value: the correctly
    rounded quotient of two integers that binary64 holds exactly. *)
Definition float_dec (m : Z) (e : nat) : float :=
  let q := PrimFloat.div (PrimFloat.of_uint63 (Uint63.of_Z (Z.abs m)))
                         (PrimFloat.of_uint63 (Uint63.of_Z (10 ^ Z.of_nat e))) in
  if (m <? 0)%Z then PrimFloat.opp q else q.

Definition binary64 : Arithmetic :=
  {| num := float; add := PrimFloat.add; sub := PrimFloat.sub;
     mul := PrimFloat.mul; max := float_max; dec := float_dec |}.

Definition exact : Arithmetic :=
  {| num := R; add := Rplus; sub := Rminus; mul := Rmult; max := Rmax;
     dec := fun m e => (IZR m / IZR (10 ^ Z.of_nat e))%R |}.

Record TrailPoint (T : Type) : Type := { x : T; y : T; opacity : T }.
Arguments x {T} t.
Arguments y {T} t.
Arguments opacity {T} t.

(** [trailTargetRef.current] *)
Record Target (T : Type) : Type := { target_x : T; target_y : T; active : bool }.
Arguments target_x {T} t.
Arguments target_y {T} t.
Arguments active {T} t.

(** [next[index] = v] for an index inside the array. *)
Fixpoint assign {A : Type} (l : list A) (index : nat) (v : A) : list A :=
  match l, index with
  | [], _ => []
  | _ :: l', O => v :: l'
  | a :: l', S i => a :: assign l' i v
  end.

Section Animate.

Variable T : Arithmetic.

Local Notation "a + b" := (add T a b).
Local Notation "a - b" := (sub T a b).
Local Notation "a * b" := (mul T a b).

(** The component as mounted: [TRAIL_LENGTH] points at the origin. *)
Definition initial_trail : list (TrailPoint T) :=
  repeat {| x := dec T 0 0; y := dec T 0 0; opacity := dec T 0 0 |} TRAIL_LENGTH.

Definition ease (index : nat) : T :=
  if Nat.eqb index 0 then dec T 2 1 else dec T 24 2.

Definition opacityTarget (target : Target T) (index : nat) : T :=
  if active target
  then max T (dec T 0 0) (dec T 85 2 - dec T (Z.of_nat index) 0 * dec T 13 2)
  else dec T 0 0.

(** One pass of the loop body. *)
Definition move (target : Target T) (index : nat) (leadX leadY : T)
                (point : TrailPoint T) : TrailPoint T :=
  {| x := x point + (leadX - x point) * ease index;
     y := y point + (leadY - y point) * ease index;
     opacity := opacity point
                + (opacityTarget target index - opacity point) * dec T 18 2 |}.

(** The [for] loop with [count] iterations left.  Reading [prev[index]]
    past the end gives [undefined], and [point.x] then throws: [None]. *)
Fixpoint loop (target : Target T) (count index : nat) (leadX leadY : T)
              (prev next : list (TrailPoint T)) : option (list (TrailPoint T)) :=
  match count with
  | O => Some next
  | S count' =>
      match nth_error prev index with
      | None => None
      | Some point =>
          let moved := move target index leadX leadY point in
          loop target count' (S index) (x moved) (y moved)
               prev (assign next index moved)
      end
  end.

(** The updater that [animate] passes to [setTrail]. *)
Definition animate (target : Target T) (prev : list (TrailPoint T))
  : option (list (TrailPoint T)) :=
  loop target TRAIL_LENGTH 0 (target_x target) (target_y target) prev prev.

(** [n] frames with the pointer target held. *)
Fixpoint frames (n : nat) (target : Target T) (trail : list (TrailPoint T))
  : option (list (TrailPoint T)) :=
  match n with
  | O => Some trail
  | S n' =>
      match frames n' target trail with
      | None => None
      | Some t => animate target t
      end
  end.

(** A coordinate of point [i] after [n] frames, read through [proj]. *)
Definition at_frame (proj : TrailPoint T -> T) (target : Target T)
           (start : list (TrailPoint T)) (n i : nat) : T :=
  match frames n target start with
  | Some trail =>
      match nth_error trail i with
      | Some point => proj point
      | None => dec T 0 0
      end
  | None => dec T 0 0
  end.

(** The lead of point [i] in the step from frame [n] to frame [n + 1]:
    the pointer target for the head, else point [i - 1] as that same
    step has just moved it. *)
Definition lead_at (proj_target : Target T -> T) (proj : TrailPoint T -> T)
           (target : Target T) (start : list (TrailPoint T)) (n i : nat) : T :=
  match i with
  | O => proj_target target
  | S j => at_frame proj target start (S n) j
  end.

End Animate.

End Trail.

(** ** The claims in the words of the specification

    The two readings of a response that the specification words differently
    from the code, for comparison with [Upload.json_message] and
    [Upload.filename]. *)
Module Claimed.

Import Json JsString.

Section WithNumber.

Variable number : Type.
Variable number_text : number -> string.

(** The message for a parsed JSON body: the trimmed text of a string
    payload; else [detail] if it is a string; else the serialization of
    [detail] if it exists; else the generic message. *)
Definition json_message (r : Upload.Response number) (payload : Json.value number)
  : string :=
  match payload with
  | JString p => trim p
  | _ =>
      match Json.detail payload with
      | Some (JString t) => t
      | Some d => Json.stringify number number_text d
      | None => Upload.generic_message r
      end
  end.

Fixpoint strip_leading_quotes (s : string) : string :=
  match s with
  | String c s' => if Ascii.eqb c dquote then strip_leading_quotes s' else s
  | EmptyString => EmptyString
  end.

Fixpoint strip_trailing_quotes (s : string) : string :=
  match s with
  | EmptyString => EmptyString
  | String c s' =>
      match strip_trailing_quotes s' with
      | EmptyString => if Ascii.eqb c dquote then EmptyString else String c EmptyString
      | t => String c t
      end
  end.

(** The name of the download: the fragment after [filename=] with the
    quote characters around it stripped, and the synthesized name when
    the header has no such fragment. *)
Definition download_name (now : N) (r : Upload.Response number) : string :=
  match Upload.headers_get r "Content-Disposition" with
  | None => "xbrl-export-" ++ of_N now ++ ".xlsx"
  | Some h =>
      match nth_error (split h "filename=") 1 with
      | None => "xbrl-export-" ++ of_N now ++ ".xlsx"
      | Some fragment => strip_trailing_quotes (strip_leading_quotes fragment)
      end
  end.

End WithNumber.

Arguments json_message {number} number_text r payload.
Arguments download_name {number} now r.

End Claimed.

(** ** The content kind a response declares

    The kind in the words of the specification: the media type of
    [Content-Type], which is the text before the first [;], trimmed and
    lowercased; it is a JSON kind when it mentions [json].  For comparison
    with the test of [Upload.error_message], which looks for
    [application/json] anywhere in the header. *)
Module Declared.

Import JsString.

Definition media_type (content_type : string) : string :=
  toLowerCase (trim (hd "" (split content_type ";"))).

Definition declares_json {number : Type} (r : Upload.Response number) : bool :=
  includes (media_type (Upload.contentType r)) "json".

(** The message for a body of a kind that is not JSON: its trimmed text if
    that is not empty, else the generic message. *)
Definition text_message {number : Type} (r : Upload.Response number)
                        (body : string) : string :=
  if JsString.truthy (trim body) then trim body else Upload.generic_message r.

End Declared.

(** ** Concrete files, responses and pointer targets *)
Module Samples.

Import Json JsString Upload.

Definition old_report : File := {| name := "old.xml"; size := 1 |}.
Definition pdf_report : File := {| name := "report.pdf"; size := 1 |}.
Definition big_report : File := {| name := "report.xml"; size := 16 * 1024 * 1024 |}.

Definition q : string := String dquote "".

Definition no_body {A : Type} : outcome A := Throws (ThrownError "body unavailable").

(** A response with a JSON body. *)
Definition json_response (code : N) (payload : Json.value Z) : Response Z :=
  {| status := code;
     headers := [("Content-Type", "application/json")];
     json := Returned payload;
     text := no_body;
     blob := no_body |}.

(** A response with a plain-text body. *)
Definition text_response (code : N) (body : string) : Response Z :=
  {| status := code;
     headers := [("Content-Type", "text/plain; charset=utf-8")];
     json := no_body;
     text := Returned body;
     blob := no_body |}.

(** A response that declares JSON and carries a body that does not parse. *)
Definition broken_json_response (code : N) : Response Z :=
  {| status := code;
     headers := [("content-type", "application/json")];
     json := Throws (ThrownError "Unexpected token < in JSON at position 0");
     text := no_body;
     blob := no_body |}.

(** A workbook sent with the given [Content-Disposition]. *)
Definition workbook : Blob := [Byte.x50; Byte.x4b; Byte.x03; Byte.x04].

Definition workbook_response (disposition : option string) : Response Z :=
  {| status := 200;
     headers := match disposition with
                | Some d => [("content-disposition", d)]
                | None => []
                end;
     json := no_body;
     text := no_body;
     blob := Returned workbook |}.

(** The state while a request for [old.xml] is pending. *)
Definition uploading_old : App :=
  {| selectedFile := Some old_report; state := Uploading; error := None;
     successMessage := None; inputFile := Some old_report |}.

Definition pointer : Trail.Target (Trail.num Trail.binary64) :=
  {| Trail.target_x := 100%float; Trail.target_y := 50%float;
     Trail.active := true |}.

(** The same pointer target in exact arithmetic. *)
Definition resting : Trail.Target R :=
  {| Trail.target_x := 100%R; Trail.target_y := 50%R; Trail.active := true |}.

(** A plain-text error whose [Content-Type] carries [application/json] in a
    parameter; [response.json()] throws on such a body. *)
Definition mislabelled_response : Response Z :=
  {| status := 500;
     headers := [("Content-Type", "text/plain; note=application/json")];
     json := Throws (ThrownError "Unexpected token i in JSON at position 0");
     text := Returned "internal error";
     blob := no_body |}.

(** A six-point trail at rest on the origin, but for its second point at
    [x = 90]. *)
Definition crossing : list (Trail.TrailPoint R) :=
  [ {| Trail.x := 0%R; Trail.y := 0%R; Trail.opacity := 0%R |};
    {| Trail.x := 90%R; Trail.y := 0%R; Trail.opacity := 0%R |};
    {| Trail.x := 0%R; Trail.y := 0%R; Trail.opacity := 0%R |};
    {| Trail.x := 0%R; Trail.y := 0%R; Trail.opacity := 0%R |};
    {| Trail.x := 0%R; Trail.y := 0%R; Trail.opacity := 0%R |};
    {| Trail.x := 0%R; Trail.y := 0%R; Trail.opacity := 0%R |} ].

(** The binary64 trail 192 frames after mounting, the pointer resting at
    [pointer]. *)
Definition settled : list (Trail.TrailPoint float) :=
  Eval vm_compute in
    match Trail.frames Trail.binary64 192 pointer
                       (Trail.initial_trail Trail.binary64) with
    | Some trail => trail
    | None => []
    end.

End Samples.

(** ** What the page renders from the state *)
Module View.

Import Upload.

(** [fileHint] *)
Definition fileHint (a : App) : string :=
  match selectedFile a with
  | None => ""
  | Some file => name file ++ " (" ++ Format.formatBytes (size file) ++ ")"
  end.

(** The three conditional blocks of the form: [fileHint && ...],
    [error && ...] and [successMessage && ...]. *)
Definition shows_selection (a : App) : bool := JsString.truthy (fileHint a).

Definition shows_error (a : App) : bool :=
  match error a with Some _ => true | None => false end.

Definition shows_success (a : App) : bool :=
  match successMessage a with Some m => JsString.truthy m | None => false end.

Definition TRAIL_SIZES : list Z := [320; 280; 240; 200; 160; 140]%Z.

Definition TRAIL_COLORS : list string :=
  ["rgba(99, 102, 241, 0.65)";
   "rgba(56, 189, 248, 0.5)";
   "rgba(236, 72, 153, 0.45)";
   "rgba(129, 140, 248, 0.4)";
   "rgba(14, 165, 233, 0.35)";
   "rgba(217, 70, 239, 0.32)"].

(** [Math.max(30 - index * 3, 12)], the blur radius of node [index]; the
    operands are integers, on which binary64 is exact. *)
Definition blur (index : nat) : Z := Z.max (30 - Z.of_nat index * 3) 12.

End View.

(** ** The pointer handlers and the scene they drive *)
Module Pointer.

Import Trail.

(** The two fields of [getBoundingClientRect()] the handlers read. *)
Record Rect (T : Type) : Type := { rect_left : T; rect_top : T }.
Arguments rect_left {T} r.
Arguments rect_top {T} r.

Record PointerEvent (T : Type) : Type := { clientX : T; clientY : T }.
Arguments clientX {T} p.
Arguments clientY {T} p.

(** What the page can receive: the four pointer events, each with
    [pageRef.current] as it is then ([None] for [null]), and an animation
    frame. *)
Inductive Input (T : Type) : Type :=
| PointerMove (page : option (Rect T)) (event : PointerEvent T)
| PointerEnter (page : option (Rect T)) (event : PointerEvent T)
| PointerDown (page : option (Rect T)) (event : PointerEvent T)
| PointerLeave
| Frame.
Arguments PointerMove {T} page event.
Arguments PointerEnter {T} page event.
Arguments PointerDown {T} page event.
Arguments PointerLeave {T}.
Arguments Frame {T}.

Section Handlers.

Variable T : Arithmetic.

Definition handlePointerMove (page : option (Rect T)) (event : PointerEvent T)
                             (target : Target T) : Target T :=
  match page with
  | None => target
  | Some rect =>
      {| target_x := sub T (clientX event) (rect_left rect);
         target_y := sub T (clientY event) (rect_top rect);
         active := true |}
  end.

Definition handlePointerLeave (target : Target T) : Target T :=
  {| target_x := target_x target; target_y := target_y target; active := false |}.

Definition handlePointerDown (page : option (Rect T)) (event : PointerEvent T)
                             (target : Target T) : Target T :=
  handlePointerMove page event target.

(** [trailTargetRef.current] and the [trail] state. *)
Definition Scene : Type := (Target T * list (TrailPoint T))%type.

(** One input; [None] when [animate] throws. *)
Definition react (input : Input T) (scene : Scene) : option Scene :=
  let '(target, trail) := scene in
  match input with
  | PointerMove page event => Some (handlePointerMove page event target, trail)
  | PointerEnter page event => Some (handlePointerMove page event target, trail)
  | PointerDown page event => Some (handlePointerDown page event target, trail)
  | PointerLeave => Some (handlePointerLeave target, trail)
  | Frame =>
      match animate T target trail with
      | Some next => Some (target, next)
      | None => None
      end
  end.

Fixpoint play (inputs : list (Input T)) (scene : Scene) : option Scene :=
  match inputs with
  | [] => Some scene
  | input :: rest =>
      match react input scene with
      | Some scene' => play rest scene'
      | None => None
      end
  end.

End Handlers.

End Pointer.

(** * Properties *)

(** ** Strings *)

Lemma toLowerCase_app (a b : string) :
  JsString.toLowerCase (a ++ b) = JsString.toLowerCase a ++ JsString.toLowerCase b.
Proof.
  induction a as [|c a IH]; simpl; [reflexivity | now rewrite IH].
Qed.

Lemma endsWith_unfold (s suffix : string) :
  JsString.endsWith s suffix =
    if String.eqb s suffix then true
    else match s with
         | EmptyString => false
         | String _ s' => JsString.endsWith s' suffix
         end.
Proof. destruct s; reflexivity. Qed.

Lemma endsWith_refl (s : string) : JsString.endsWith s s = true.
Proof. rewrite endsWith_unfold, String.eqb_refl. reflexivity. Qed.

Lemma endsWith_app (a b : string) : JsString.endsWith (a ++ b) b = true.
Proof.
  induction a as [|c a IH].
  - apply endsWith_refl.
  - rewrite endsWith_unfold.
    destruct (String.eqb (String c a ++ b) b); [reflexivity | exact IH].
Qed.

(** A name that ends, whatever the case of its letters, in [.xml] or in
    [.xbrl] passes the test of [handleFileChange]. *)
Lemma extension_ok_suffix (stem ext : string) :
  JsString.toLowerCase ext = ".xml" \/ JsString.toLowerCase ext = ".xbrl" ->
  Upload.extension_ok (stem ++ ext) = true.
Proof.
  intros H. unfold Upload.extension_ok. rewrite toLowerCase_app.
  destruct H as [-> | ->]; rewrite endsWith_app; auto using orb_true_r.
Qed.

Lemma formatBytes_limit : Format.formatBytes Upload.MAX_FILE_SIZE = "15.00 MB".
Proof. reflexivity. Qed.

(** ** [handleFileChange] *)

Section FileChoice.

Import Upload Samples.

Ltac unfold_setters :=
  unfold setSelectedFile, setState, setError, setSuccessMessage, setInputFile;
  simpl.

(** What a rejected extension does to the state: the message, the emptied
    control, and nothing else; [selectedFile] is not written. *)
Lemma bad_extension_rejected (a : App) (file : File) :
  extension_ok (name file) = false ->
  handleFileChange (Some file) a =
    {| selectedFile := selectedFile a; state := state a;
       error := error_of "Only .xml or .xbrl files are supported.";
       successMessage := None; inputFile := None |}.
Proof.
  unfold extension_ok, handleFileChange. intros H.
  apply orb_false_elim in H. destruct H as [H1 H2].
  unfold_setters. rewrite H1, H2. reflexivity.
Qed.

(** What an oversized file does to the state. *)
Lemma oversized_rejected (a : App) (file : File) :
  extension_ok (name file) = true ->
  (MAX_FILE_SIZE < size file)%N ->
  handleFileChange (Some file) a =
    {| selectedFile := selectedFile a; state := state a;
       error := error_of "File exceeds the 15.00 MB limit.";
       successMessage := None; inputFile := None |}.
Proof.
  unfold extension_ok, handleFileChange. intros H Hsize.
  apply N.ltb_lt in Hsize. unfold_setters.
  destruct (JsString.endsWith _ ".xml"), (JsString.endsWith _ ".xbrl");
    simpl in *; try discriminate; rewrite Hsize; reflexivity.
Qed.

Lemma limit_message_mentions_limit :
  JsString.includes "File exceeds the 15.00 MB limit." "15.00 MB" = true.
Proof. reflexivity. Qed.

(** A file that passes both tests is selected and any message is cleared. *)
Lemma accepted (a : App) (file : File) :
  extension_ok (name file) = true ->
  (size file <= MAX_FILE_SIZE)%N ->
  handleFileChange (Some file) a =
    {| selectedFile := Some file; state := state a; error := None;
       successMessage := None; inputFile := Some file |}.
Proof.
  unfold extension_ok, handleFileChange. intros H Hsize.
  assert (Hlt : (MAX_FILE_SIZE <? size file)%N = false)
    by (apply N.ltb_ge; exact Hsize).
  unfold_setters.
  destruct (JsString.endsWith _ ".xml"), (JsString.endsWith _ ".xbrl");
    simpl in *; try discriminate; rewrite Hlt; reflexivity.
Qed.

(** C4.  Choosing [report.pdf] after [old.xml] was selected: the choice is
    rejected with the message of the claim and the control is emptied, but
    [selectedFile] still holds [old.xml], where the claim has it unset. *)
Theorem bad_extension_keeps_previous_selection :
  let before := handleFileChange (Some old_report) initial in
  let after := handleFileChange (Some pdf_report) before in
  selectedFile before = Some old_report
  /\ error after = error_of "Only .xml or .xbrl files are supported."
  /\ inputFile after = None
  /\ selectedFile after = Some old_report.
Proof. repeat split. Qed.

(** C5.  Choosing a [report.xml] of 16 MiB after [old.xml] was selected: the
    message names the limit as [15.00 MB], as the claim says, but
    [selectedFile] still holds [old.xml], where the claim has it unset. *)
Theorem oversized_keeps_previous_selection :
  let before := handleFileChange (Some old_report) initial in
  let after := handleFileChange (Some big_report) before in
  selectedFile before = Some old_report
  /\ error after = error_of "File exceeds the 15.00 MB limit."
  /\ inputFile after = None
  /\ selectedFile after = Some old_report.
Proof. repeat split. Qed.

(** C10.  A file with an accepted extension whose size is exactly
    [15 * 1024 * 1024 = 15728640] bytes is selected and no error is set:
    only a size strictly above the limit is rejected. *)
Theorem size_at_limit_accepted (a : App) (file : File) :
  extension_ok (name file) = true ->
  size file = 15728640%N ->
  MAX_FILE_SIZE = 15728640%N
  /\ selectedFile (handleFileChange (Some file) a) = Some file
  /\ error (handleFileChange (Some file) a) = None.
Proof.
  intros Hext Hsize.
  rewrite (accepted a file Hext) by (rewrite Hsize; discriminate).
  repeat split.
Qed.

End FileChoice.

Lemma size_at_limit_accepted_witness :
  Upload.MAX_FILE_SIZE = 15728640%N
  /\ Upload.selectedFile
       (Upload.handleFileChange
          (Some {| Upload.name := "report.XBRL"; Upload.size := 15728640 |})
          Upload.initial)
     = Some {| Upload.name := "report.XBRL"; Upload.size := 15728640 |}
  /\ Upload.error
       (Upload.handleFileChange
          (Some {| Upload.name := "report.XBRL"; Upload.size := 15728640 |})
          Upload.initial)
     = None.
Proof.
  apply (size_at_limit_accepted Upload.initial
           {| Upload.name := "report.XBRL"; Upload.size := 15728640 |});
    reflexivity.
Defined.

(** ** [handleSubmit] *)

Section Submit.

Import Json JsString Upload.

Variable number : Type.
Variable number_truthy : number -> bool.
Variable number_text : number -> string.

Let settle := handleSubmit_settle number_truthy number_text.
Let submit := handleSubmit number_truthy number_text.

(** After a response that is not [ok], the state is [Error] with the
    message computed by [error_message]; the file stays selected. *)
Lemma settle_not_ok (now : N) (r : Response number) (a : App) :
  ok r = false ->
  fst (settle now (Returned r) a) =
    setState Error
      (setError (error_of (fst (error_message number_truthy number_text r))) a).
Proof.
  intros Hok. unfold settle, handleSubmit_settle, try_body. rewrite Hok. simpl.
  destruct (error_message number_truthy number_text r) as [m effects].
  reflexivity.
Qed.

(** C1.  With no file selected, [handleSubmit] sets the error message
    [Please choose an XBRL file before uploading.], issues no request (no
    effect at all) and leaves the upload state as it was, so [Idle] stays
    [Idle] and [Uploading] is not entered. *)
Theorem submit_without_file (now : N) (fetched : outcome (Response number)) (a : App) :
  selectedFile a = None ->
  snd (handleSubmit_begin a) = []
  /\ snd (submit now fetched a) = []
  /\ error (fst (submit now fetched a))
     = error_of "Please choose an XBRL file before uploading."
  /\ state (fst (submit now fetched a)) = state a
  /\ (state a = Idle -> state (fst (submit now fetched a)) = Idle)
  /\ selectedFile (fst (submit now fetched a)) = None.
Proof.
  intros Hnone. unfold submit, handleSubmit, handleSubmit_begin.
  rewrite Hnone. simpl. repeat split; auto.
Qed.


(** C3, as amended.  For a response that is not [ok], the state becomes
    [Error].  When its [Content-Type] does not contain [application/json],
    the message is the trimmed body text if that is not empty and the
    generic message otherwise.  When reading or parsing the body throws,
    in either branch, the thrown value is dropped and the message is the
    generic one. *)
Theorem text_error_classified (now : N) (r : Response number) (a : App) :
  ok r = false ->
  let after := fst (settle now (Returned r) a) in
  let generic :=
    error_of ("Failed to convert XBRL file (status " ++ of_N (status r) ++ ")") in
  state after = Error
  /\ (includes (contentType r) "application/json" = false ->
      forall body, text r = Returned body ->
        error after = if JsString.truthy (trim body)
                      then error_of (trim body) else generic)
  /\ (includes (contentType r) "application/json" = false ->
      forall e, text r = Throws e -> error after = generic)
  /\ (includes (contentType r) "application/json" = true ->
      forall e, json r = Throws e -> error after = generic).
Proof.
  intros Hok after generic. subst after generic.
  rewrite (settle_not_ok now r a Hok).
  unfold error_message, generic_message.
  split; [reflexivity |].
  split; [| split]; intros Hkind v Hv; rewrite Hkind; rewrite Hv; simpl;
    try reflexivity.
  destruct (JsString.truthy (trim v)); reflexivity.
Qed.

(** C6, as amended.  For an [ok] response whose body is read as [b], the
    only effect is the download of [b], the state becomes [Success] with
    the message [Excel workbook downloaded successfully.], and the name of
    the download is the text following the first [filename=] of
    [Content-Disposition] (up to the next [filename=]) with every double
    quote removed; when the header is missing, has no [filename=], or
    that text is empty once the quotes are removed, the name is
    [xbrl-export-<now>.xlsx]. *)
Theorem success_downloads (now : N) (r : Response number) (b : Blob) (a : App) :
  ok r = true ->
  blob r = Returned b ->
  let synthesized := "xbrl-export-" ++ of_N now ++ ".xlsx" in
  exists file_name : string,
    snd (settle now (Returned r) a) = [Download file_name b]
    /\ state (fst (settle now (Returned r) a)) = Success
    /\ successMessage (fst (settle now (Returned r) a))
       = Some "Excel workbook downloaded successfully."
    /\ (headers_get r "Content-Disposition" = None -> file_name = synthesized)
    /\ (forall h, headers_get r "Content-Disposition" = Some h ->
          match nth_error (split h "filename=") 1 with
          | None => file_name = synthesized
          | Some fragment =>
              file_name = if JsString.truthy (remove_dquotes fragment)
                          then remove_dquotes fragment else synthesized
          end).
Proof.
  intros Hok Hblob synthesized. exists (download_name now r).
  unfold settle, handleSubmit_settle, try_body. rewrite Hok, Hblob.
  cbn [negb fst snd app state successMessage setState setSuccessMessage].
  split; [reflexivity |]. split; [reflexivity |]. split; [reflexivity |].
  unfold download_name, filename. split.
  - intros Hnone. rewrite Hnone. reflexivity.
  - intros h Hh.
    destruct (nth_error (split h "filename=") 1) as [fragment|] eqn:Hsplit;
      rewrite Hh, Hsplit; reflexivity.
Qed.

(** *** At most one request in flight *)

Lemma change_keeps_state (chosen : option File) (a : App) :
  state (handleFileChange chosen a) = state a.
Proof.
  unfold handleFileChange. destruct chosen as [file|]; simpl; [| reflexivity].
  destruct (negb _ && negb _); [reflexivity |].
  destruct (MAX_FILE_SIZE <? size file)%N; reflexivity.
Qed.

Lemma settle_leaves_uploading (now : N) (fetched : outcome (Response number)) (a : App) :
  disabled (fst (settle now fetched a)) = false.
Proof.
  unfold settle, handleSubmit_settle.
  destruct (try_body number_truthy number_text now fetched) as [[[file_name b]|e] effects];
    reflexivity.
Qed.

(** C7, as amended.  In every state the page reaches through its form
    (whose controls are disabled while the state is [Uploading]), the
    number of pending requests is one while the state is [Uploading] and
    zero otherwise: never more than one. *)
Theorem one_request_in_flight (p : Page) :
  reachable number_truthy number_text p ->
  in_flight p = (if disabled (app p) then 1 else 0) /\ in_flight p <= 1.
Proof.
  intros Hreach.
  assert (H : in_flight p = if disabled (app p) then 1 else 0).
  { induction Hreach as [|p q _ IH Hstep]; [reflexivity |].
    destruct Hstep as [p chosen Hen | p Hen | p now fetched n Hn]; simpl.
    - unfold disabled in *. rewrite change_keeps_state. exact IH.
    - rewrite Hen in IH. rewrite IH. unfold handleSubmit_begin.
      destruct (selectedFile (app p)); simpl; [reflexivity |].
      unfold disabled in Hen |- *. simpl.
      destruct (state (app p)); try discriminate Hen; reflexivity.
    - fold settle. rewrite settle_leaves_uploading.
      destruct (disabled (app p)); lia. }
  split; [exact H |]. rewrite H. destruct (disabled (app p)); lia.
Qed.

End Submit.

(** *** The claims on concrete responses *)

Section SubmitExamples.

Import Json JsString Upload Samples.

Let settle := handleSubmit_settle Z_truthy Z_text.
Let surfaced (r : Response Z) : option UploadError :=
  error (fst (settle 0%N (Returned r) uploading_old)).

Lemma submit_without_file_witness :
  selectedFile initial = None
  /\ snd (handleSubmit_begin initial) = []
  /\ state (fst (handleSubmit Z_truthy Z_text 0 (Returned (text_response 200 "")) initial))
     = Idle.
Proof.
  split; [reflexivity |].
  destruct (submit_without_file Z Z_truthy Z_text 0
              (Returned (text_response 200 "")) initial eq_refl)
    as (Hbegin & _ & _ & _ & Hidle & _).
  split; [exact Hbegin | exact (Hidle eq_refl)].
Defined.



(** Status 500 with the plain-text body [internal error] between blanks. *)
Lemma text_error_classified_witness :
  surfaced (text_response 500 "  internal error  ") = error_of "internal error".
Proof.
  destruct (text_error_classified Z Z_truthy Z_text 0
              (text_response 500 "  internal error  ") uploading_old eq_refl)
    as (_ & Htext & _).
  exact (Htext eq_refl "  internal error  " eq_refl).
Defined.

(** A body that does not parse: the generic message, in state [Error]. *)
Example broken_json_gives_generic_message :
  fst (settle 0%N (Returned (broken_json_response 502)) uploading_old)
  = setState Error
      (setError (error_of "Failed to convert XBRL file (status 502)") uploading_old)
  /\ snd (settle 0%N (Returned (broken_json_response 502)) uploading_old)
     = [ConsoleWarn; ConsoleError].
Proof. split; reflexivity. Qed.

(** [Content-Disposition: attachment; filename="out.xlsx"] *)
Lemma success_downloads_witness :
  snd (settle 7%N
         (Returned (workbook_response (Some ("attachment; filename=" ++ q ++ "out.xlsx" ++ q))))
         uploading_old)
  = [Download "out.xlsx" workbook].
Proof.
  destruct (success_downloads Z Z_truthy Z_text 7
              (workbook_response (Some ("attachment; filename=" ++ q ++ "out.xlsx" ++ q)))
              workbook uploading_old eq_refl eq_refl)
    as (file_name & Heffects & _ & _ & _ & Hname).
  specialize (Hname _ eq_refl). simpl in Hname.
  transitivity [Download file_name workbook];
    [exact Heffects | rewrite Hname; reflexivity].
Defined.

(** C6 fails on three [ok] responses.  With
    [filename="Q3 "final".xlsx"] the code removes the inner quotes too and
    saves [Q3 final.xlsx], where stripping the surrounding quotes leaves
    them in.  With the empty name [filename=""] the fragment is present
    and the code still synthesizes the name.  And when reading the body
    throws, nothing is downloaded and the state is [Error]. *)
Lemma filename_quotes_counterexample :
  let inner := workbook_response
                 (Some ("attachment; filename=" ++ q ++ "Q3 " ++ q ++ "final" ++ q
                          ++ ".xlsx" ++ q)) in
  let empty := workbook_response (Some ("attachment; filename=" ++ q ++ q)) in
  let unread : Response Z :=
    {| status := 200; headers := []; json := no_body; text := no_body;
       blob := Throws (ThrownError "network error") |} in
  (snd (settle 7%N (Returned inner) uploading_old) = [Download "Q3 final.xlsx" workbook]
   /\ Claimed.download_name 7 inner = "Q3 " ++ q ++ "final" ++ q ++ ".xlsx"
   /\ Upload.download_name 7 inner <> Claimed.download_name 7 inner)
  /\ (snd (settle 7%N (Returned empty) uploading_old)
      = [Download "xbrl-export-7.xlsx" workbook]
      /\ Claimed.download_name 7 empty = ""
      /\ Upload.download_name 7 empty <> Claimed.download_name 7 empty)
  /\ (ok unread = true
      /\ settle 7%N (Returned unread) uploading_old
         = (setState Error (setError (error_of "network error") uploading_old),
            [ConsoleError])).
Proof.
  repeat split; try reflexivity; intros H; vm_compute in H; discriminate H.
Qed.

(** C7 fails: called in state [Uploading] with a file selected,
    [handleSubmit] does not refuse; it issues a second request and stays
    in [Uploading]. *)
Lemma submit_while_uploading_counterexample :
  state uploading_old = Uploading
  /\ handleSubmit_begin uploading_old
     = (uploading_old,
        [Fetch "/api/v1/files/xbrl-to-excel" "POST" "file" old_report]).
Proof. split; reflexivity. Qed.

(** The page after [old.xml] was chosen and the form submitted. *)
Lemma one_request_in_flight_witness :
  reachable Z_truthy Z_text {| app := uploading_old; in_flight := 1 |}
  /\ in_flight {| app := uploading_old; in_flight := 1 |} <= 1.
Proof.
  assert (Hreach : reachable Z_truthy Z_text {| app := uploading_old; in_flight := 1 |}).
  { refine (reach_step Z Z_truthy Z_text
              {| app := handleFileChange (Some old_report) initial; in_flight := 0 |} _
              (reach_step Z Z_truthy Z_text mounted _ (reach_mounted Z Z_truthy Z_text) _)
              _).
    - exact (step_change Z Z_truthy Z_text mounted (Some old_report) eq_refl).
    - exact (step_submit Z Z_truthy Z_text
               {| app := handleFileChange (Some old_report) initial; in_flight := 0 |}
               eq_refl). }
  split; [exact Hreach |].
  exact (proj2 (one_request_in_flight Z Z_truthy Z_text _ Hreach)).
Defined.

End SubmitExamples.

(** ** [animate] *)

Section AnimateFacts.

Import Trail.

Variable T : Arithmetic.

Local Notation "a + b" := (add T a b).
Local Notation "a - b" := (sub T a b).
Local Notation "a * b" := (mul T a b).

(** The loop unrolled on a trail of six points: each point is moved
    towards the point before it as just moved. *)
Lemma animate_six (target : Target T) (p0 p1 p2 p3 p4 p5 : TrailPoint T) :
  let q0 := move T target 0 (target_x target) (target_y target) p0 in
  let q1 := move T target 1 (x q0) (y q0) p1 in
  let q2 := move T target 2 (x q1) (y q1) p2 in
  let q3 := move T target 3 (x q2) (y q2) p3 in
  let q4 := move T target 4 (x q3) (y q3) p4 in
  let q5 := move T target 5 (x q4) (y q4) p5 in
  animate T target [p0; p1; p2; p3; p4; p5] = Some [q0; q1; q2; q3; q4; q5].
Proof. reflexivity. Qed.

Lemma six_points (A : Type) (l : list A) :
  List.length l = TRAIL_LENGTH ->
  exists a b c d e f, l = [a; b; c; d; e; f].
Proof.
  unfold TRAIL_LENGTH. intros H.
  do 6 (destruct l as [|? l]; [discriminate H |]).
  destruct l; [| discriminate H]. repeat eexists.
Qed.

Lemma animate_length (target : Target T) (prev : list (TrailPoint T)) :
  List.length prev = TRAIL_LENGTH ->
  exists next, animate T target prev = Some next /\ List.length next = TRAIL_LENGTH.
Proof.
  intros H. destruct (six_points _ prev H) as (a & b & c & d & e & f & ->).
  rewrite animate_six. eexists. split; reflexivity.
Qed.

(** The loop never stops on a missing point: every frame is computed and
    has six points. *)
Lemma frames_length (target : Target T) (start : list (TrailPoint T)) (n : nat) :
  List.length start = TRAIL_LENGTH ->
  exists trail, frames T n target start = Some trail
                /\ List.length trail = TRAIL_LENGTH.
Proof.
  intros H. induction n as [|n (trail & Hn & Hlen)]; simpl.
  - exists start. split; [reflexivity | exact H].
  - rewrite Hn. apply animate_length. exact Hlen.
Qed.

(** C8.  On a trail of six points [animate] returns six points, and for
    every index [i] below six the new point is computed from the old one
    and a lead, where the lead is the pointer target for [i = 0] and the
    new point [i - 1] of the same step otherwise: each coordinate is
    [old + (lead - old) * ease] with [ease] 0.2 for [i = 0] and 0.24
    otherwise, and the opacity is [old + (goal - old) * 0.18] with [goal]
    [max(0, 0.85 - i * 0.13)] when the target is active and 0 when it is
    not.  The arithmetic is any [Arithmetic], binary64 included. *)
Theorem animate_step (target : Target T) (prev : list (TrailPoint T)) :
  List.length prev = TRAIL_LENGTH ->
  exists next,
    animate T target prev = Some next
    /\ List.length next = TRAIL_LENGTH
    /\ forall i, i < TRAIL_LENGTH ->
         exists (old : TrailPoint T) (leadX leadY : T),
           nth_error prev i = Some old
           /\ match i with
              | O => leadX = target_x target /\ leadY = target_y target
              | S j => exists before, nth_error next j = Some before
                                      /\ leadX = x before /\ leadY = y before
              end
           /\ let ease := if Nat.eqb i 0 then dec T 2 1 else dec T 24 2 in
              let goal :=
                if active target
                then max T (dec T 0 0)
                           (dec T 85 2 - dec T (Z.of_nat i) 0 * dec T 13 2)
                else dec T 0 0 in
              nth_error next i =
                Some {| x := x old + (leadX - x old) * ease;
                        y := y old + (leadY - y old) * ease;
                        opacity := opacity old + (goal - opacity old) * dec T 18 2 |}.
Proof.
  intros H. destruct (six_points _ prev H) as (p0 & p1 & p2 & p3 & p4 & p5 & ->).
  eexists. split; [apply animate_six |]. split; [reflexivity |].
  unfold TRAIL_LENGTH. intros i Hi.
  do 6 (destruct i as [|i];
        [ eexists; eexists; eexists; split; [reflexivity |];
          split; [first [split; reflexivity
                        | eexists; split; [reflexivity | split; reflexivity]] |];
          reflexivity | ]).
  lia.
Qed.

(** The recurrence a coordinate follows from frame to frame. *)
Lemma at_frame_step (target : Target T) (start : list (TrailPoint T)) (n i : nat) :
  List.length start = TRAIL_LENGTH ->
  i < TRAIL_LENGTH ->
  at_frame T x target start (S n) i
    = at_frame T x target start n i
      + (lead_at T target_x x target start n i - at_frame T x target start n i)
        * ease T i
  /\ at_frame T y target start (S n) i
     = at_frame T y target start n i
       + (lead_at T target_y y target start n i - at_frame T y target start n i)
         * ease T i
  /\ at_frame T opacity target start (S n) i
     = at_frame T opacity target start n i
       + (opacityTarget T target i - at_frame T opacity target start n i)
         * dec T 18 2.
Proof.
  intros H Hi.
  destruct (frames_length target start n H) as (trail & Hn & Hlen).
  destruct (six_points _ trail Hlen) as (p0 & p1 & p2 & p3 & p4 & p5 & ->).
  unfold lead_at, at_frame. cbn [frames]. rewrite Hn, animate_six.
  unfold TRAIL_LENGTH in Hi.
  do 6 (destruct i as [|i]; [repeat split |]).
  lia.
Qed.

End AnimateFacts.

Lemma animate_step_witness :
  List.length (Trail.initial_trail Trail.binary64) = Trail.TRAIL_LENGTH
  /\ exists next,
       Trail.animate Trail.binary64 Samples.pointer (Trail.initial_trail Trail.binary64)
       = Some next
       /\ List.length next = Trail.TRAIL_LENGTH.
Proof.
  split; [reflexivity |].
  destruct (animate_step Trail.binary64 Samples.pointer
              (Trail.initial_trail Trail.binary64) eq_refl)
    as (next & Hnext & Hlen & _).
  exists next. split; [exact Hnext | exact Hlen].
Defined.

(** ** The trail over many frames *)

Section Binary64Trail.

Import Trail Samples.

(** From the mounted trail and a resting, active pointer at (100, 50), the
    binary64 trail stops changing at frame 192: every later frame is
    [settled].  There the head's opacity is strictly below [max(0, 0.85)],
    the head is strictly short of the pointer and the second point
    strictly short of the head. *)
Lemma binary64_trail_settles :
  (forall n, frames binary64 (192 + n) pointer (initial_trail binary64) = Some settled)
  /\ exists head second,
       nth_error settled 0 = Some head /\ nth_error settled 1 = Some second
       /\ PrimFloat.ltb (opacity head) (opacityTarget binary64 pointer 0) = true
       /\ PrimFloat.ltb (x head) (target_x pointer) = true
       /\ PrimFloat.ltb (x second) (x head) = true.
Proof.
  split.
  - induction n as [|n IH].
    + vm_compute. reflexivity.
    + replace (192 + S n) with (S (192 + n)) by lia.
      cbn [frames]. rewrite IH. vm_compute. reflexivity.
  - do 2 eexists. repeat split; vm_compute; reflexivity.
Qed.

End Binary64Trail.

Section ExactTrail.

Import Trail.
Local Open Scope R_scope.

(** Easing towards [lead] by a factor in [[0, 1]] lands between the old
    value and the lead, no farther from the lead than before. *)
Lemma ease_between (e old lead : R) :
  0 <= e <= 1 ->
  Rmin old lead <= old + (lead - old) * e <= Rmax old lead
  /\ Rabs (lead - (old + (lead - old) * e)) <= Rabs (lead - old).
Proof.
  intros [He0 He1]. split.
  - unfold Rmin, Rmax. destruct (Rle_dec old lead); nra.
  - replace (lead - (old + (lead - old) * e)) with ((lead - old) * (1 - e)) by ring.
    rewrite Rabs_mult, (Rabs_pos_eq (1 - e)) by lra.
    pose proof (Rabs_pos (lead - old)). nra.
Qed.

Lemma Un_cv_shift (u : nat -> R) (l : R) :
  Un_cv u l -> Un_cv (fun n => u (S n)) l.
Proof.
  intros Hu eps Heps. destruct (Hu eps Heps) as [N HN].
  exists N. intros n Hn. apply HN. lia.
Qed.

(** A sequence eased by a fixed factor in [(0, 1)] towards a lead that
    converges has the limit of the lead. *)
Lemma ease_cv (e limit : R) (lead u : nat -> R) :
  0 < e < 1 ->
  Un_cv lead limit ->
  (forall n, u (S n) = u n + (lead n - u n) * e) ->
  Un_cv u limit.
Proof.
  intros [He0 He1] Hlead Hrec eps Heps.
  destruct (Hlead (eps / 2)) as [N HN]; [lra |].
  set (A := Rabs (u N - limit)).
  assert (HA : 0 <= A) by apply Rabs_pos.
  assert (Hbound : forall k, Rabs (u (N + k)%nat - limit)
                             <= (1 - e) ^ k * A + eps / 2).
  { induction k as [|k IH].
    - rewrite Nat.add_0_r. simpl. fold A. lra.
    - replace (N + S k)%nat with (S (N + k)) by lia. rewrite Hrec.
      replace (u (N + k)%nat + (lead (N + k)%nat - u (N + k)%nat) * e - limit)
        with ((1 - e) * (u (N + k)%nat - limit) + e * (lead (N + k)%nat - limit))
        by ring.
      eapply Rle_trans; [apply Rabs_triang |].
      rewrite !Rabs_mult, (Rabs_pos_eq (1 - e)), (Rabs_pos_eq e) by lra.
      assert (Hl : Rabs (lead (N + k)%nat - limit) < eps / 2)
        by (apply HN; lia).
      simpl.
      assert (H1 : (1 - e) * Rabs (u (N + k)%nat - limit)
                   <= (1 - e) * ((1 - e) ^ k * A + eps / 2))
        by (apply Rmult_le_compat_l; [lra | exact IH]).
      assert (H2 : e * Rabs (lead (N + k)%nat - limit) <= e * (eps / 2))
        by (apply Rmult_le_compat_l; lra).
      lra. }
  destruct (pow_lt_1_zero (1 - e)) with (y := eps / 2 / (A + 1)) as [M HM].
  { rewrite Rabs_pos_eq; lra. }
  { apply Rdiv_lt_0_compat; lra. }
  exists (N + M)%nat. intros n Hn.
  replace n with (N + (n - N))%nat by lia.
  unfold Rdist. eapply Rle_lt_trans; [apply Hbound |].
  assert (Hpow : Rabs ((1 - e) ^ (n - N)) < eps / 2 / (A + 1))
    by (apply HM; lia).
  rewrite Rabs_pos_eq in Hpow by (apply pow_le; lra).
  assert (Hmul : (1 - e) ^ (n - N) * A <= eps / 2 / (A + 1) * A)
    by (apply Rmult_le_compat_r; lra).
  assert (Hdiv : eps / 2 / (A + 1) * A < eps / 2).
  { unfold Rdiv. rewrite Rmult_assoc.
    rewrite <- (Rmult_1_r (eps * / 2)) at 2.
    apply Rmult_lt_compat_l; [lra |].
    rewrite Rmult_comm. apply (Rmult_lt_reg_r (A + 1)); [lra |].
    rewrite Rmult_assoc, Rinv_l by lra. lra. }
  lra.
Qed.

Lemma Un_cv_const (c : R) : Un_cv (fun _ => c) c.
Proof.
  intros eps Heps. exists 0%nat. intros n _.
  unfold Rdist. rewrite Rminus_diag, Rabs_R0. exact Heps.
Qed.

Lemma ease_exact (i : nat) : 0 < ease exact i < 1.
Proof.
  unfold ease. destruct (Nat.eqb i 0); simpl dec;
    [change (10 ^ Z.of_nat 1)%Z with 10%Z | change (10 ^ Z.of_nat 2)%Z with 100%Z];
    lra.
Qed.

Lemma opacity_ease_exact : dec exact 18 2 = 0.18.
Proof. simpl dec. change (10 ^ Z.of_nat 2)%Z with 100%Z. lra. Qed.

Lemma opacityTarget_exact (target : Target exact) (i : nat) :
  active target = true ->
  opacityTarget exact target i = Rmax 0 (0.85 - INR i * 0.13).
Proof.
  intros Hactive. unfold opacityTarget. rewrite Hactive. simpl.
  change (10 ^ Z.of_nat 2)%Z with 100%Z. change (10 ^ Z.of_nat 0)%Z with 1%Z.
  rewrite <- INR_IZR_INZ. f_equal; lra.
Qed.

Section Resting.

Variable target : Target exact.
Variable start : list (TrailPoint exact).
Hypothesis start_length : List.length start = TRAIL_LENGTH.

Let px := at_frame exact x target start.
Let py := at_frame exact y target start.
Let po := at_frame exact opacity target start.
Let leadX := lead_at exact target_x x target start.
Let leadY := lead_at exact target_y y target start.

Lemma position_step (n i : nat) :
  (i < TRAIL_LENGTH)%nat ->
  px (S n) i = px n i + (leadX n i - px n i) * ease exact i
  /\ py (S n) i = py n i + (leadY n i - py n i) * ease exact i.
Proof.
  intros Hi.
  destruct (at_frame_step exact target start n i start_length Hi) as (Hx & Hy & _).
  split; [exact Hx | exact Hy].
Qed.

Lemma opacity_step (n i : nat) :
  (i < TRAIL_LENGTH)%nat ->
  po (S n) i = po n i + (opacityTarget exact target i - po n i) * 0.18.
Proof.
  intros Hi.
  destruct (at_frame_step exact target start n i start_length Hi) as (_ & _ & Ho).
  rewrite <- opacity_ease_exact. exact Ho.
Qed.

(** Every point of the trail tends to the pointer target. *)
Lemma position_cv (i : nat) :
  (i < TRAIL_LENGTH)%nat ->
  Un_cv (fun n => px n i) (target_x target)
  /\ Un_cv (fun n => py n i) (target_y target).
Proof.
  induction i as [|i IH]; intros Hi.
  - split.
    + apply (ease_cv (ease exact 0) _ (fun _ => target_x target));
        [apply ease_exact | apply Un_cv_const |].
      intros n. exact (proj1 (position_step n 0 Hi)).
    + apply (ease_cv (ease exact 0) _ (fun _ => target_y target));
        [apply ease_exact | apply Un_cv_const |].
      intros n. exact (proj2 (position_step n 0 Hi)).
  - destruct IH as [IHx IHy]; [lia |]. split.
    + apply (ease_cv (ease exact (S i)) _ (fun n => px (S n) i));
        [apply ease_exact | apply Un_cv_shift with (u := fun n => px n i); exact IHx |].
      intros n. exact (proj1 (position_step n (S i) Hi)).
    + apply (ease_cv (ease exact (S i)) _ (fun n => py (S n) i));
        [apply ease_exact | apply Un_cv_shift with (u := fun n => py n i); exact IHy |].
      intros n. exact (proj2 (position_step n (S i) Hi)).
Qed.

(** So does the lead of every point. *)
Lemma lead_cv (i : nat) :
  (i < TRAIL_LENGTH)%nat ->
  Un_cv (fun n => leadX n i) (target_x target)
  /\ Un_cv (fun n => leadY n i) (target_y target).
Proof.
  intros Hi. destruct i as [|j].
  - split; [exact (Un_cv_const (target_x target))
           | exact (Un_cv_const (target_y target))].
  - destruct (position_cv j) as [Hx Hy]; [lia |].
    split; [apply Un_cv_shift with (u := fun n => px n j); exact Hx
           | apply Un_cv_shift with (u := fun n => py n j); exact Hy].
Qed.

Lemma gap_cv (u v : nat -> R) (l : R) :
  Un_cv u l -> Un_cv v l -> Un_cv (fun n => u n - v n) 0.
Proof.
  intros Hu Hv. replace 0 with (l - l) by ring. apply CV_minus; assumption.
Qed.

End Resting.

(** C9, as amended: in exact arithmetic.  For a trail of six points, a
    resting pointer target and [active = true], every frame is computed,
    and for every point [i]: at each step the new position lies between
    the old position and the lead of that step, no farther from the lead
    than the old one; the position tends to the pointer target, which is
    also where its lead tends, so the gap to the lead tends to 0; and the
    opacity tends to [max(0, 0.85 - i * 0.13)]. *)
Theorem trail_converges_exact (target : Target exact)
    (start : list (TrailPoint exact)) (i : nat) :
  List.length start = TRAIL_LENGTH ->
  active target = true ->
  (i < TRAIL_LENGTH)%nat ->
  let px := fun n => at_frame exact x target start n i in
  let py := fun n => at_frame exact y target start n i in
  let po := fun n => at_frame exact opacity target start n i in
  let leadX := fun n => lead_at exact target_x x target start n i in
  let leadY := fun n => lead_at exact target_y y target start n i in
  (forall n, exists trail, frames exact n target start = Some trail
                           /\ List.length trail = TRAIL_LENGTH)
  /\ (forall n, Rmin (px n) (leadX n) <= px (S n) <= Rmax (px n) (leadX n)
                /\ Rabs (leadX n - px (S n)) <= Rabs (leadX n - px n))
  /\ (forall n, Rmin (py n) (leadY n) <= py (S n) <= Rmax (py n) (leadY n)
                /\ Rabs (leadY n - py (S n)) <= Rabs (leadY n - py n))
  /\ Un_cv px (target_x target)
  /\ Un_cv py (target_y target)
  /\ Un_cv (fun n => leadX n - px (S n)) 0
  /\ Un_cv (fun n => leadY n - py (S n)) 0
  /\ Un_cv po (Rmax 0 (0.85 - INR i * 0.13)).
Proof.
  intros Hlen Hactive Hi px py po leadX leadY.
  destruct (position_cv target start Hlen i Hi) as [Hx Hy].
  destruct (lead_cv target start Hlen i Hi) as [Hlx Hly].
  assert (Hease : 0 <= ease exact i <= 1)
    by (pose proof (ease_exact i); lra).
  split; [intros n; apply frames_length; exact Hlen |].
  split; [intros n; subst px leadX; cbv beta;
          rewrite (proj1 (position_step target start Hlen n i Hi));
          apply ease_between; exact Hease |].
  split; [intros n; subst py leadY; cbv beta;
          rewrite (proj2 (position_step target start Hlen n i Hi));
          apply ease_between; exact Hease |].
  split; [exact Hx |]. split; [exact Hy |].
  split; [apply gap_cv with (l := target_x target);
          [exact Hlx | apply Un_cv_shift with (u := px); exact Hx] |].
  split; [apply gap_cv with (l := target_y target);
          [exact Hly | apply Un_cv_shift with (u := py); exact Hy] |].
  rewrite <- (opacityTarget_exact target i Hactive).
  apply (ease_cv 0.18 _ (fun _ => opacityTarget exact target i));
    [lra | apply Un_cv_const |].
  intros n. exact (opacity_step target start Hlen n i Hi).
Qed.

End ExactTrail.

(** The tail of the mounted trail, the pointer resting at (100, 50). *)
Lemma trail_converges_exact_witness :
  List.length (Trail.initial_trail Trail.exact) = Trail.TRAIL_LENGTH
  /\ Trail.active Samples.resting = true
  /\ Un_cv (fun n => Trail.at_frame Trail.exact Trail.x Samples.resting
                       (Trail.initial_trail Trail.exact) n 5) 100%R
  /\ Un_cv (fun n => Trail.at_frame Trail.exact Trail.opacity Samples.resting
                       (Trail.initial_trail Trail.exact) n 5)
           (Rmax 0 (0.85 - INR 5 * 0.13))%R.
Proof.
  split; [reflexivity |]. split; [reflexivity |].
  destruct (trail_converges_exact Samples.resting (Trail.initial_trail Trail.exact) 5
              eq_refl eq_refl (le_n 6))
    as (_ & _ & _ & Hx & _ & _ & _ & Ho).
  split; [exact Hx | exact Ho].
Defined.

(** * Further properties of the code *)

(** ** File names and sizes *)

Lemma append_assoc (a b c : string) : (a ++ b) ++ c = a ++ b ++ c.
Proof. induction a as [|ch a IH]; simpl; [reflexivity | now rewrite IH]. Qed.

Lemma endsWith_split (s suffix : string) :
  JsString.endsWith s suffix = true -> exists stem, s = stem ++ suffix.
Proof.
  induction s as [|c s IH]; rewrite endsWith_unfold.
  - destruct (String.eqb "" suffix) eqn:E; [| discriminate].
    apply String.eqb_eq in E. exists "". now subst.
  - destruct (String.eqb (String c s) suffix) eqn:E.
    + apply String.eqb_eq in E. exists "". now subst.
    + intros H. destruct (IH H) as [stem ->]. exists (String c stem). reflexivity.
Qed.

Lemma toLowerCase_split (s a b : string) :
  JsString.toLowerCase s = a ++ b ->
  exists s1 s2, s = s1 ++ s2 /\ JsString.toLowerCase s1 = a
                /\ JsString.toLowerCase s2 = b.
Proof.
  revert s. induction a as [|c a IH]; intros s H.
  - exists "", s. repeat split. exact H.
  - destruct s as [|d s]; [discriminate H |].
    simpl in H. injection H as Hc Hs.
    destruct (IH s Hs) as (s1 & s2 & -> & H1 & H2).
    exists (String d s1), s2. simpl. now rewrite Hc, H1.
Qed.

(** X1.  The test of [handleFileChange] accepts a name exactly when the name
    is some stem followed by an extension that is [.xml] or [.xbrl] once
    lowercased. *)
Theorem extension_ok_iff (file_name : string) :
  Upload.extension_ok file_name = true
  <-> exists stem ext,
        file_name = stem ++ ext
        /\ (JsString.toLowerCase ext = ".xml" \/ JsString.toLowerCase ext = ".xbrl").
Proof.
  split.
  - unfold Upload.extension_ok. intros H. apply orb_true_iff in H.
    destruct H as [H | H]; apply endsWith_split in H; destruct H as [low H];
      apply toLowerCase_split in H; destruct H as (stem & ext & -> & _ & Hext);
      exists stem, ext; auto.
  - intros (stem & ext & -> & H). apply extension_ok_suffix. exact H.
Qed.

(** X2.  A size from 1 to 1023 bytes is printed by [formatBytes] as the
    number itself with two zero decimals and the unit [B]. *)
Theorem formatBytes_below_kilo (bytes : N) :
  (0 < bytes < 1024)%N ->
  Format.formatBytes bytes = JsString.of_N bytes ++ ".00 B".
Proof.
  intros [Hpos Hlt]. unfold Format.formatBytes.
  destruct (N.eqb_spec bytes 0) as [-> | _]; [lia |].
  assert (Hlog : (N.log2 bytes / 10 = 0)%N).
  { apply N.div_small. apply N.log2_lt_pow2; [exact Hpos | exact Hlt]. }
  rewrite Hlog. cbn [N.to_nat N.of_nat nth Format.sizes].
  unfold Format.toFixed2.
  change (1024 ^ 0)%N with 1%N.
  replace ((2 * 100 * bytes + 1) / (2 * 1))%N with (100 * bytes)%N.
  2:{ change (2 * 1)%N with 2%N. apply N.div_unique with (r := 1%N); lia. }
  replace (100 * bytes / 100)%N with bytes
    by (symmetry; rewrite N.mul_comm; apply N.div_mul; discriminate).
  replace (100 * bytes mod 100)%N with 0%N
    by (symmetry; rewrite N.mul_comm; apply N.Div0.mod_mul).
  cbn [N.ltb N.compare]. rewrite append_assoc. reflexivity.
Qed.

Lemma formatBytes_below_kilo_witness :
  Format.formatBytes 1023 = "1023.00 B".
Proof.
  exact (formatBytes_below_kilo 1023 (conj eq_refl eq_refl)).
Defined.

Section FileChoiceMore.

Import Upload.

(** X3.  Whether a chosen file is accepted is decided by its name and size
    alone: no error is left exactly when the extension passes and the size
    is at most the limit.  Accepted, the file is selected and stays in the
    control; rejected, the selection is as before and the control is
    emptied.  Either way the upload state is untouched and the success
    message is cleared. *)
Theorem choice_outcome (file : File) (a : App) :
  let after := handleFileChange (Some file) a in
  (error after = None
   <-> extension_ok (name file) = true /\ (size file <= MAX_FILE_SIZE)%N)
  /\ (error after = None ->
      selectedFile after = Some file /\ inputFile after = Some file)
  /\ (error after <> None ->
      selectedFile after = selectedFile a /\ inputFile after = None)
  /\ state after = state a
  /\ successMessage after = None.
Proof.
  intros after. subst after.
  destruct (extension_ok (name file)) eqn:Hext.
  - destruct (N.le_gt_cases (size file) MAX_FILE_SIZE) as [Hle | Hgt].
    + rewrite (accepted a file Hext Hle). cbn.
      intuition congruence.
    + rewrite (oversized_rejected a file Hext Hgt). cbn.
      unfold MAX_FILE_SIZE in *. intuition (try discriminate; try lia).
  - rewrite (bad_extension_rejected a file Hext). cbn.
    intuition discriminate.
Qed.

(** X4.  Delivering the same change event twice leaves the state the first
    delivery produced, whether the file is accepted, rejected or absent. *)
Theorem choice_idempotent (chosen : option File) (a : App) :
  handleFileChange chosen (handleFileChange chosen a) = handleFileChange chosen a.
Proof.
  destruct chosen as [file|]; [| reflexivity].
  destruct (extension_ok (name file)) eqn:Hext.
  - destruct (N.le_gt_cases (size file) MAX_FILE_SIZE) as [Hle | Hgt].
    + now rewrite !(accepted _ file Hext Hle).
    + now rewrite !(oversized_rejected _ file Hext Hgt).
  - now rewrite !(bad_extension_rejected _ file Hext).
Qed.

(** X5.  The line [Selected: ...] is rendered exactly when a file is
    selected, even one with an empty name. *)
Theorem selection_shown_iff_selected (a : App) :
  View.shows_selection a = true <-> exists file, selectedFile a = Some file.
Proof.
  unfold View.shows_selection, View.fileHint.
  destruct (selectedFile a) as [file|].
  - split; [intros _; now exists file | intros _].
    destruct (name file); reflexivity.
  - split; [discriminate | intros [file H]; discriminate H].
Qed.

End FileChoiceMore.

(** ** One call of [handleSubmit] *)

Lemma remove_dquotes_app (a b : string) :
  JsString.remove_dquotes (a ++ b)
  = JsString.remove_dquotes a ++ JsString.remove_dquotes b.
Proof.
  induction a as [|c a IH]; simpl; [reflexivity |].
  destruct (Ascii.eqb c JsString.dquote); simpl; now rewrite IH.
Qed.

Lemma remove_dquotes_idempotent (s : string) :
  JsString.remove_dquotes (JsString.remove_dquotes s) = JsString.remove_dquotes s.
Proof.
  induction s as [|c s IH]; simpl; [reflexivity |].
  destruct (Ascii.eqb c JsString.dquote) eqn:E; simpl; [exact IH |].
  now rewrite E, IH.
Qed.

Lemma remove_dquotes_digits (d : Decimal.uint) :
  JsString.remove_dquotes (NilEmpty.string_of_uint d) = NilEmpty.string_of_uint d.
Proof. induction d; simpl; [reflexivity | now rewrite IHd ..]. Qed.

Lemma of_N_truthy (n : N) : JsString.truthy (JsString.of_N n) = true.
Proof.
  unfold JsString.of_N. destruct n as [|p]; [reflexivity |].
  simpl. pose proof (DecimalPos.Unsigned.to_uint_nonnil p) as H.
  destruct (Pos.to_uint p); [now elim H | reflexivity ..].
Qed.

Lemma Z_text_truthy (n : Z) : JsString.truthy (Json.Z_text n) = true.
Proof. destruct n; simpl; [reflexivity | apply of_N_truthy | reflexivity]. Qed.

Section SubmitMore.

Import Json JsString Upload.

Variable number : Type.
Variable number_truthy : number -> bool.
Variable number_text : number -> string.

Let settle := handleSubmit_settle number_truthy number_text.
Let submit := handleSubmit number_truthy number_text.

(** The inner [try] can only warn. *)
Lemma try_body_effects (now : N) (fetched : outcome (Response number)) :
  snd (try_body number_truthy number_text now fetched) = []
  \/ snd (try_body number_truthy number_text now fetched) = [ConsoleWarn].
Proof.
  unfold try_body. destruct fetched as [r | e]; [| now left].
  destruct (ok r); simpl.
  - destruct (blob r); now left.
  - unfold error_message.
    destruct (includes (contentType r) "application/json");
      [destruct (json r) | destruct (text r)]; simpl; auto.
Qed.

(** The outer [try] returns exactly for an [ok] response whose body is
    read. *)
Lemma try_body_returns (now : N) (fetched : outcome (Response number)) :
  (exists file_name b,
     fst (try_body number_truthy number_text now fetched) = Returned (file_name, b))
  <-> exists r b, fetched = Returned r /\ ok r = true /\ blob r = Returned b.
Proof.
  unfold try_body. split.
  - intros (file_name & b & H). destruct fetched as [r | e]; [| discriminate H].
    destruct (ok r) eqn:Hok; simpl in H.
    + destruct (blob r) as [b' | e] eqn:Hblob; [| discriminate H].
      now exists r, b'.
    + destruct (error_message number_truthy number_text r). discriminate H.
  - intros (r & b & -> & Hok & Hblob). rewrite Hok, Hblob. simpl. eauto.
Qed.

(** X6.  With a file selected, one call of [handleSubmit] issues exactly one
    request, first of all its effects: a POST of that file under the field
    [file] to the conversion endpoint.  It ends in [Success] or in [Error],
    and the file stays selected. *)
Theorem submit_with_file (now : N) (fetched : outcome (Response number))
    (a : App) (file : File) :
  selectedFile a = Some file ->
  exists rest,
    snd (submit now fetched a)
    = Fetch "/api/v1/files/xbrl-to-excel" "POST" "file" file :: rest
    /\ (forall url method field f, ~ In (Fetch url method field f) rest)
    /\ (state (fst (submit now fetched a)) = Success
        \/ state (fst (submit now fetched a)) = Error)
    /\ selectedFile (fst (submit now fetched a)) = Some file
    /\ inputFile (fst (submit now fetched a)) = inputFile a.
Proof.
  intros Hfile. unfold submit, handleSubmit, handleSubmit_begin. rewrite Hfile.
  unfold handleSubmit_settle.
  pose proof (try_body_effects now fetched) as Heffects.
  destruct (try_body number_truthy number_text now fetched)
    as [[[file_name b] | e] effects]; simpl in *.
  - eexists. split; [reflexivity |]. split; [| auto].
    intros url method field f Hin. apply in_app_or in Hin.
    destruct Hin as [Hin | [Hin | []]]; [| discriminate Hin].
    destruct Heffects as [-> | ->]; [destruct Hin |].
    destruct Hin as [Hin | []]. discriminate Hin.
  - eexists. split; [reflexivity |]. split; [| auto].
    intros url method field f Hin. apply in_app_or in Hin.
    destruct Hin as [Hin | [Hin | []]]; [| discriminate Hin].
    destruct Heffects as [-> | ->]; [destruct Hin |].
    destruct Hin as [Hin | []]. discriminate Hin.
Qed.

(** X7.  When [fetch] itself fails, the state becomes [Error] and the
    message is the message of the thrown [Error], or
    [Unexpected error occurred.] when what was thrown is not an [Error];
    nothing is downloaded. *)
Theorem transport_failure (now : N) (e : Thrown) (a : App) (file : File) :
  selectedFile a = Some file ->
  state (fst (submit now (Throws e) a)) = Error
  /\ error (fst (submit now (Throws e) a))
     = error_of match e with
                | ThrownError msg => msg
                | ThrownOther => "Unexpected error occurred."
                end
  /\ successMessage (fst (submit now (Throws e) a)) = None
  /\ snd (submit now (Throws e) a)
     = [Fetch "/api/v1/files/xbrl-to-excel" "POST" "file" file; ConsoleError].
Proof.
  intros Hfile. unfold submit, handleSubmit, handleSubmit_begin. rewrite Hfile.
  repeat split.
Qed.

(** X8.  With a file selected, a download is triggered exactly when the call
    ends in [Success], which is exactly when the response is [ok] and its
    body is read.  [Success] comes with the confirmation and no error,
    [Error] with an error and no confirmation. *)
Theorem download_iff_success (now : N) (fetched : outcome (Response number))
    (a : App) (file : File) :
  selectedFile a = Some file ->
  let after := fst (submit now fetched a) in
  let effects := snd (submit now fetched a) in
  ((exists file_name b, In (Download file_name b) effects) <-> state after = Success)
  /\ (state after = Success
      <-> exists r b, fetched = Returned r /\ ok r = true /\ blob r = Returned b)
  /\ (state after = Success ->
      error after = None
      /\ successMessage after = Some "Excel workbook downloaded successfully.")
  /\ (state after = Error ->
      successMessage after = None /\ exists m, error after = error_of m).
Proof.
  intros Hfile after effects. subst after effects.
  pose proof (try_body_returns now fetched) as Hret.
  pose proof (try_body_effects now fetched) as Heffects.
  unfold submit, handleSubmit, handleSubmit_begin. rewrite Hfile.
  unfold handleSubmit_settle.
  destruct (try_body number_truthy number_text now fetched)
    as [[[file_name b] | e] effects]; simpl in *.
  - split; [split; [reflexivity | intros _; exists file_name, b] |].
    { right. apply in_or_app. right. now left. }
    split; [split; [intros _; apply Hret; eauto | reflexivity] |].
    split; [auto | discriminate].
  - split; [split; [| discriminate] |].
    { intros (file_name & b & [Hin | Hin]); [discriminate Hin |].
      apply in_app_or in Hin. destruct Hin as [Hin | [Hin | []]]; [| discriminate Hin].
      destruct Heffects as [-> | ->]; [destruct Hin |].
      destruct Hin as [Hin | []]. discriminate Hin. }
    split; [split; [discriminate |] |].
    { intros H. apply Hret in H. destruct H as (? & ? & H). discriminate H. }
    split; [discriminate | intros _; split; [reflexivity | eauto]].
Qed.

(** X9.  The name given to a download is never empty and holds no double
    quote, whatever the [Content-Disposition] header says. *)
Theorem download_name_clean (now : N) (r : Response number) :
  JsString.truthy (download_name now r) = true
  /\ remove_dquotes (download_name now r) = download_name now r.
Proof.
  assert (Hsyn : JsString.truthy ("xbrl-export-" ++ of_N now ++ ".xlsx") = true
                 /\ remove_dquotes ("xbrl-export-" ++ of_N now ++ ".xlsx")
                    = "xbrl-export-" ++ of_N now ++ ".xlsx").
  { split; [reflexivity |].
    rewrite !remove_dquotes_app. unfold of_N at 1.
    rewrite remove_dquotes_digits. reflexivity. }
  unfold download_name, filename.
  destruct (headers_get r "Content-Disposition") as [h|]; [| exact Hsyn].
  destruct (nth_error (split h "filename=") 1) as [fragment|]; [| exact Hsyn].
  destruct (JsString.truthy (remove_dquotes fragment)) eqn:E; [| exact Hsyn].
  split; [exact E | apply remove_dquotes_idempotent].
Qed.

(** X10.  Provided a number is never printed as the empty text, the message
    shown after a response that is not [ok] is never empty, whatever the
    body holds. *)
Theorem rejection_message_not_empty (now : N) (r : Response number) (a : App) :
  (forall n, JsString.truthy (number_text n) = true) ->
  ok r = false ->
  exists m, error (fst (settle now (Returned r) a)) = error_of m
            /\ JsString.truthy m = true.
Proof.
  intros Hnumber Hok. unfold settle, handleSubmit_settle, try_body. rewrite Hok.
  cbn [negb]. unfold error_message.
  assert (Hgeneric : JsString.truthy (generic_message r) = true) by reflexivity.
  assert (Hjson : forall payload,
             JsString.truthy (json_message number_truthy number_text r payload) = true).
  { intros payload. unfold json_message.
    destruct payload as [| b | n | p | items | props]; cbn [Json.detail]; try exact Hgeneric.
    - destruct (JsString.truthy (trim p)) eqn:E; [exact E | exact Hgeneric].
    - destruct (lookup "detail" props) as [d|]; [| exact Hgeneric].
      destruct (Json.truthy number number_truthy d) eqn:E; [| exact Hgeneric].
      destruct d as [| [|] | n | t | items | props']; try reflexivity.
      + apply Hnumber.
      + exact E. }
  destruct (includes (contentType r) "application/json").
  - destruct (json r) as [payload | e]; cbn [fst snd]; eexists;
      (split; [reflexivity |]); [apply Hjson | exact Hgeneric].
  - destruct (text r) as [body | e]; cbn [fst snd]; eexists;
      (split; [reflexivity |]); [| exact Hgeneric].
    destruct (JsString.truthy (trim body)) eqn:E; [exact E | exact Hgeneric].
Qed.

End SubmitMore.

(** ** What holds in every state the form can reach *)

Section PageInvariants.

Import Json JsString Upload.

Variable number : Type.
Variable number_truthy : number -> bool.
Variable number_text : number -> string.

Let settle := handleSubmit_settle number_truthy number_text.

(** The facts that every step of the page preserves together. *)
Lemma page_invariant (p : Page) :
  reachable number_truthy number_text p ->
  in_flight p = (if disabled (app p) then 1 else 0)
  /\ (state (app p) = Uploading ->
      error (app p) = None /\ successMessage (app p) = None)
  /\ (forall m, successMessage (app p) = Some m ->
        state (app p) = Success /\ error (app p) = None
        /\ m = "Excel workbook downloaded successfully.")
  /\ (forall f, selectedFile (app p) = Some f ->
        extension_ok (name f) = true /\ (size f <= MAX_FILE_SIZE)%N).
Proof.
  intros Hreach.
  induction Hreach as [|p q _ (IHn & IHu & IHs & IHf) Hstep].
  - cbn. repeat split; discriminate.
  - destruct Hstep as [p chosen Hen | p Hen | p now fetched n Hn]; cbn [app in_flight].
    + assert (Hstate : state (handleFileChange chosen (app p)) = state (app p))
        by apply change_keeps_state.
      unfold disabled in *. rewrite Hstate.
      split; [exact IHn |].
      split; [intros Hup; rewrite Hup in Hen; discriminate Hen |].
      destruct chosen as [file|]; [| cbn; repeat split; discriminate].
      destruct (extension_ok (name file)) eqn:Hext;
        [destruct (N.le_gt_cases (size file) MAX_FILE_SIZE) as [Hle | Hgt] |].
      * rewrite (accepted (app p) file Hext Hle). cbn.
        split; [discriminate |].
        intros f Hf. injection Hf as <-. split; [exact Hext | exact Hle].
      * rewrite (oversized_rejected (app p) file Hext Hgt). cbn.
        split; [discriminate | exact IHf].
      * rewrite (bad_extension_rejected (app p) file Hext). cbn.
        split; [discriminate | exact IHf].
    + rewrite Hen in IHn. unfold handleSubmit_begin.
      destruct (selectedFile (app p)) as [file|] eqn:Hsel; cbn.
      * rewrite IHn.
        split; [reflexivity |]. split; [auto |]. split; [discriminate |].
        intros f Hf. apply IHf. rewrite <- Hsel. exact Hf.
      * unfold disabled in *. cbn. rewrite IHn.
        split; [destruct (state (app p)); try discriminate Hen; reflexivity |].
        split; [intros Hup; rewrite Hup in Hen; discriminate Hen |].
        split; [discriminate |].
        intros f Hf. apply IHf. rewrite <- Hsel. exact Hf.
    + assert (Hup : state (app p) = Uploading).
      { unfold disabled in IHn. destruct (state (app p)); try reflexivity;
          rewrite Hn in IHn; discriminate IHn. }
      destruct (IHu Hup) as [Herr Hmsg].
      fold settle. unfold settle, handleSubmit_settle.
      destruct (try_body number_truthy number_text now fetched)
        as [[[file_name b] | e] effects]; cbn.
      * unfold disabled in IHn. rewrite Hup, Hn in IHn. injection IHn as ->.
        split; [reflexivity |]. split; [discriminate |].
        split; [intros m Hm; injection Hm as <-; auto | exact IHf].
      * unfold disabled in IHn. rewrite Hup, Hn in IHn. injection IHn as ->.
        split; [reflexivity |]. split; [discriminate |].
        split; [intros m Hm; rewrite Hmsg in Hm; discriminate Hm | exact IHf].
Qed.

(** X11.  In every state the form reaches, a success message is shown only
    in state [Success], it is the fixed confirmation, and it is never shown
    together with an error. *)
Theorem success_message_alone (p : Page) :
  reachable number_truthy number_text p ->
  (View.shows_error (app p) && View.shows_success (app p) = false)
  /\ forall m, successMessage (app p) = Some m ->
       state (app p) = Success
       /\ m = "Excel workbook downloaded successfully.".
Proof.
  intros Hreach. destruct (page_invariant p Hreach) as (_ & _ & Hs & _).
  split.
  - unfold View.shows_error, View.shows_success.
    destruct (successMessage (app p)) as [m|]; [| apply andb_false_r].
    destruct (Hs m eq_refl) as (_ & -> & _). reflexivity.
  - intros m Hm. destruct (Hs m Hm) as (H1 & _ & H2). now split.
Qed.

(** X12.  In every state the form reaches, nothing is shown while a request
    is pending: in state [Uploading] there is neither an error nor a
    success message. *)
Theorem quiet_while_uploading (p : Page) :
  reachable number_truthy number_text p ->
  state (app p) = Uploading ->
  View.shows_error (app p) = false /\ View.shows_success (app p) = false.
Proof.
  intros Hreach Hup. destruct (page_invariant p Hreach) as (_ & Hu & _).
  destruct (Hu Hup) as [Herr Hmsg].
  unfold View.shows_error, View.shows_success. now rewrite Herr, Hmsg.
Qed.

(** X13.  In every state the form reaches, the selected file has passed the
    checks, also after a later choice was rejected: every request that a
    submit issues carries a file with an accepted extension and a size of
    at most 15 MiB. *)
Theorem requests_carry_checked_files (p : Page) :
  reachable number_truthy number_text p ->
  forall url method field f,
    In (Fetch url method field f) (snd (handleSubmit_begin (app p))) ->
    selectedFile (app p) = Some f
    /\ extension_ok (name f) = true
    /\ (size f <= 15 * 1024 * 1024)%N.
Proof.
  intros Hreach url method field f Hin.
  destruct (page_invariant p Hreach) as (_ & _ & _ & Hf).
  unfold handleSubmit_begin in Hin.
  destruct (selectedFile (app p)) as [file|] eqn:Hsel; [| destruct Hin].
  destruct Hin as [Hin | []]. injection Hin as _ _ _ <-.
  split; [reflexivity | exact (Hf file eq_refl)].
Qed.

(** X14.  No step of the page leads back to [Idle]: a state that is [Idle]
    after a step was [Idle] before it. *)
Theorem idle_never_reentered (p q : Page) :
  step number_truthy number_text p q ->
  state (app q) = Idle ->
  state (app p) = Idle.
Proof.
  intros Hstep. destruct Hstep as [p chosen Hen | p Hen | p now fetched n Hn];
    cbn [app].
  - now rewrite change_keeps_state.
  - unfold handleSubmit_begin.
    destruct (selectedFile (app p)); cbn; [discriminate | auto].
  - fold settle. unfold settle, handleSubmit_settle.
    destruct (try_body number_truthy number_text now fetched)
      as [[[file_name b] | e] effects]; cbn; discriminate.
Qed.

End PageInvariants.

(** ** One animation frame, in any arithmetic *)

Section TrailMore.

Import Trail Pointer.

Variable T : Arithmetic.

(** X15.  [animate] throws exactly on a trail of fewer than six points.  On
    a longer one it returns a trail of the same length whose points from
    index six on are the old ones. *)
Theorem animate_needs_six (target : Target T) (prev : list (TrailPoint T)) :
  (List.length prev < TRAIL_LENGTH -> animate T target prev = None)
  /\ (TRAIL_LENGTH <= List.length prev ->
      exists next, animate T target prev = Some next
                   /\ List.length next = List.length prev
                   /\ skipn TRAIL_LENGTH next = skipn TRAIL_LENGTH prev).
Proof.
  unfold TRAIL_LENGTH.
  do 6 (destruct prev as [|? prev]; [split; [reflexivity | cbn; lia] |]).
  split; [cbn; lia | intros _].
  eexists. split; [reflexivity |]. split; reflexivity.
Qed.

Lemma react_length (input : Input T) (scene : Scene T) :
  List.length (snd scene) = TRAIL_LENGTH ->
  exists scene', react T input scene = Some scene'
                 /\ List.length (snd scene') = TRAIL_LENGTH.
Proof.
  destruct scene as [target trail]. cbn [snd]. intros H.
  destruct input; cbn [react]; try (eexists; split; [reflexivity | exact H]).
  destruct (animate_length T target trail H) as (next & -> & Hlen).
  eexists. split; [reflexivity | exact Hlen].
Qed.

Lemma play_length (inputs : list (Input T)) (scene : Scene T) :
  List.length (snd scene) = TRAIL_LENGTH ->
  exists scene', play T inputs scene = Some scene'
                 /\ List.length (snd scene') = TRAIL_LENGTH.
Proof.
  revert scene. induction inputs as [|input rest IH]; intros scene H; cbn [play].
  - exists scene. split; [reflexivity | exact H].
  - destruct (react_length input scene H) as (scene' & -> & H').
    apply IH. exact H'.
Qed.

(** X16.  From the trail as mounted, no sequence of pointer events and
    animation frames makes [animate] throw, and the trail always has six
    points, whatever the pointer target was at the start. *)
Theorem play_never_throws (inputs : list (Input T)) (target : Target T) :
  exists target' trail,
    play T inputs (target, initial_trail T) = Some (target', trail)
    /\ List.length trail = TRAIL_LENGTH.
Proof.
  destruct (play_length inputs (target, initial_trail T) eq_refl)
    as ([target' trail] & Hplay & Hlen).
  exists target', trail. split; [exact Hplay | exact Hlen].
Qed.

(** X17.  Every node that is rendered has a size and a colour, and its blur
    is [30 - 3 * index], above the floor of 12: after any events and frames
    from the mounted trail, each index that holds a point is below the
    length of both tables. *)
Theorem nodes_have_styles (inputs : list (Input T)) (target : Target T) :
  exists target' trail,
    play T inputs (target, initial_trail T) = Some (target', trail)
    /\ forall index point,
         nth_error trail index = Some point ->
         exists size color,
           nth_error View.TRAIL_SIZES index = Some size
           /\ nth_error View.TRAIL_COLORS index = Some color
           /\ View.blur index = (30 - 3 * Z.of_nat index)%Z
           /\ (12 < View.blur index)%Z.
Proof.
  destruct (play_length inputs (target, initial_trail T) eq_refl)
    as ([target' trail] & Hplay & Hlen).
  exists target', trail. split; [exact Hplay |].
  intros index point Hpoint.
  assert (Hindex : index < TRAIL_LENGTH).
  { cbn [snd] in Hlen. rewrite <- Hlen. apply nth_error_Some.
    rewrite Hpoint. discriminate. }
  unfold TRAIL_LENGTH in Hindex.
  do 6 (destruct index as [|index];
        [do 2 eexists; repeat split; reflexivity |]).
  lia.
Qed.

(** X18.  Leaving the page does not stop the chase: the frame computed after
    [handlePointerLeave] puts every point where the frame computed without
    it does; only the opacities differ. *)
Theorem leave_keeps_chasing (target : Target T) (prev : list (TrailPoint T)) :
  option_map (map x) (animate T (handlePointerLeave T target) prev)
  = option_map (map x) (animate T target prev)
  /\ option_map (map y) (animate T (handlePointerLeave T target) prev)
     = option_map (map y) (animate T target prev).
Proof.
  do 6 (destruct prev as [|? prev]; [split; reflexivity |]).
  split; reflexivity.
Qed.

(** X19.  The opacities of a frame depend on the old opacities and on the
    [active] flag only: two trails with the same opacities, followed by two
    targets with the same flag, fade alike wherever their points and
    targets are. *)
Theorem opacity_ignores_positions (target1 target2 : Target T)
    (prev1 prev2 : list (TrailPoint T)) :
  active target1 = active target2 ->
  map opacity prev1 = map opacity prev2 ->
  option_map (map opacity) (animate T target1 prev1)
  = option_map (map opacity) (animate T target2 prev2).
Proof.
  intros Hactive Hmap.
  destruct target1 as [x1 y1 a1], target2 as [x2 y2 a2].
  cbn in Hactive. subst a2.
  do 6 (destruct prev1 as [|[? ? ?] prev1], prev2 as [|[? ? ?] prev2];
        try discriminate Hmap; [reflexivity |];
        cbn in Hmap; injection Hmap as -> Hmap).
  cbn. rewrite Hmap. reflexivity.
Qed.

(** X20.  Motion flows from the head to the tail only: the new point [i]
    is decided by the target and the old points [0..i], so two trails that
    agree up to [i] give the same new point [i]. *)
Theorem tail_does_not_move_head (target : Target T)
    (prev prev' : list (TrailPoint T)) (i : nat) :
  List.length prev = TRAIL_LENGTH ->
  List.length prev' = TRAIL_LENGTH ->
  i < TRAIL_LENGTH ->
  firstn (S i) prev = firstn (S i) prev' ->
  option_map (fun next => nth_error next i) (animate T target prev)
  = option_map (fun next => nth_error next i) (animate T target prev').
Proof.
  intros H H' Hi Hfirst.
  destruct (six_points _ prev H) as (p0 & p1 & p2 & p3 & p4 & p5 & ->).
  destruct (six_points _ prev' H') as (q0 & q1 & q2 & q3 & q4 & q5 & ->).
  unfold TRAIL_LENGTH in Hi.
  do 6 (destruct i as [|i];
        [cbn in Hfirst; injection Hfirst as; subst; reflexivity |]).
  lia.
Qed.

End TrailMore.

(** ** Many frames, in exact arithmetic *)

Section ExactMore.

Import Trail.
Local Open Scope R_scope.

Lemma opacityTarget_inactive (target : Target exact) (i : nat) :
  active target = false -> opacityTarget exact target i = 0.
Proof.
  intros H. unfold opacityTarget. rewrite H. simpl.
  change (10 ^ Z.of_nat 0)%Z with 1%Z. lra.
Qed.

Lemma opacityTarget_range (target : Target exact) (i : nat) :
  0 <= opacityTarget exact target i <= 0.85.
Proof.
  destruct (active target) eqn:H.
  - rewrite (opacityTarget_exact target i H).
    pose proof (pos_INR i). split; [apply Rmax_l |].
    apply Rmax_lub; lra.
  - rewrite (opacityTarget_inactive target i H). lra.
Qed.

Lemma ease_head_exact : ease exact 0 = 0.2.
Proof. unfold ease. simpl. change (10 ^ Z.of_nat 1)%Z with 10%Z. lra. Qed.

(** X21.  In exact arithmetic, while the pointer target rests inactive
    ([active = false]), the opacity of every point of a six-point trail
    tends to 0, and its position still tends to the pointer target. *)
Theorem inactive_fades_exact (target : Target exact)
    (start : list (TrailPoint exact)) (i : nat) :
  List.length start = TRAIL_LENGTH ->
  active target = false ->
  (i < TRAIL_LENGTH)%nat ->
  Un_cv (fun n => at_frame exact opacity target start n i) 0
  /\ Un_cv (fun n => at_frame exact x target start n i) (target_x target)
  /\ Un_cv (fun n => at_frame exact y target start n i) (target_y target).
Proof.
  intros Hlen Hactive Hi.
  split; [| exact (position_cv target start Hlen i Hi)].
  apply (ease_cv 0.18 _ (fun _ => 0)); [lra | apply Un_cv_const |].
  intros n. rewrite (opacity_step target start Hlen n i Hi).
  now rewrite (opacityTarget_inactive target i Hactive).
Qed.

(** X22.  In exact arithmetic, with the pointer target at rest, the head of
    a six-point trail is after [n] frames at
    [target + (start - target) * 0.8^n] in each coordinate, and the opacity
    of point [i] is [goal + (start - goal) * 0.82^n]; so a head that does
    not start on the target never reaches it. *)
Theorem head_closed_form_exact (target : Target exact)
    (start : list (TrailPoint exact)) (n : nat) :
  List.length start = TRAIL_LENGTH ->
  at_frame exact x target start n 0
  = target_x target
    + (at_frame exact x target start 0 0 - target_x target) * 0.8 ^ n
  /\ at_frame exact y target start n 0
     = target_y target
       + (at_frame exact y target start 0 0 - target_y target) * 0.8 ^ n
  /\ (forall i, (i < TRAIL_LENGTH)%nat ->
        at_frame exact opacity target start n i
        = opacityTarget exact target i
          + (at_frame exact opacity target start 0 i - opacityTarget exact target i)
            * 0.82 ^ n)
  /\ (at_frame exact x target start 0 0 <> target_x target ->
      at_frame exact x target start n 0 <> target_x target).
Proof.
  intros Hlen.
  assert (H0 : (0 < TRAIL_LENGTH)%nat) by (unfold TRAIL_LENGTH; lia).
  assert (Hx : at_frame exact x target start n 0
               = target_x target
                 + (at_frame exact x target start 0 0 - target_x target) * 0.8 ^ n).
  { induction n as [|n IH]; [simpl; lra |].
    rewrite (proj1 (position_step target start Hlen n 0 H0)), ease_head_exact, IH.
    cbn [lead_at]. simpl pow. lra. }
  split; [exact Hx |]. split.
  { clear Hx. induction n as [|n IH]; [simpl; lra |].
    rewrite (proj2 (position_step target start Hlen n 0 H0)), ease_head_exact, IH.
    cbn [lead_at]. simpl pow. lra. }
  split.
  { intros i Hi. clear Hx. induction n as [|n IH]; [simpl; lra |].
    rewrite (opacity_step target start Hlen n i Hi), IH. simpl pow. lra. }
  intros Hstart Hreach. rewrite Hx in Hreach.
  assert (Hpow : 0.8 ^ n <> 0) by (apply pow_nonzero; lra).
  assert (Hprod : (at_frame exact x target start 0 0 - target_x target) * 0.8 ^ n = 0)
    by lra.
  apply Rmult_integral in Hprod. destruct Hprod as [Hz | Hz]; [lra | contradiction].
Qed.

(** X23.  In exact arithmetic, opacities stay opacities: if every point of
    a six-point trail starts with an opacity in [[0, 1]], so it has after
    every frame, whether the pointer target is active or not. *)
Theorem opacity_range_exact (target : Target exact)
    (start : list (TrailPoint exact)) (n i : nat) :
  List.length start = TRAIL_LENGTH ->
  (i < TRAIL_LENGTH)%nat ->
  0 <= at_frame exact opacity target start 0 i <= 1 ->
  0 <= at_frame exact opacity target start n i <= 1.
Proof.
  intros Hlen Hi Hstart. induction n as [|n IH]; [exact Hstart |].
  rewrite (opacity_step target start Hlen n i Hi).
  pose proof (opacityTarget_range target i). lra.
Qed.

End ExactMore.

(** ** The opacity goals in binary64 *)

Section Binary64More.

Import Trail.

(** X24.  In binary64, the opacity goal of each of the six points under an
    active target is strictly between 0 and 1, so [Math.max] never clamps
    it: the goal is [0.85 - index * 0.13] as computed.  The goals fall
    strictly from the head to the tail. *)
Theorem opacity_goals_binary64 (target : Target binary64) (index : nat) :
  active target = true ->
  index < TRAIL_LENGTH ->
  PrimFloat.ltb (dec binary64 0 0) (opacityTarget binary64 target index) = true
  /\ PrimFloat.ltb (opacityTarget binary64 target index) (dec binary64 1 0) = true
  /\ PrimFloat.eqb (opacityTarget binary64 target index)
       (sub binary64 (dec binary64 85 2)
          (mul binary64 (dec binary64 (Z.of_nat index) 0) (dec binary64 13 2)))
     = true
  /\ (S index < TRAIL_LENGTH ->
      PrimFloat.ltb (opacityTarget binary64 target (S index))
                    (opacityTarget binary64 target index) = true).
Proof.
  intros Hactive Hindex. unfold opacityTarget. rewrite Hactive.
  unfold TRAIL_LENGTH in *.
  do 6 (destruct index as [|index];
        [repeat split; try (intros _); vm_compute; reflexivity |]).
  lia.
Qed.

End Binary64More.

(** ** The further properties on concrete inputs *)

Section MoreExamples.

Import Json JsString Upload Samples.

Let selected_old : App := handleFileChange (Some old_report) initial.
Let uploading_page : Page := {| app := uploading_old; in_flight := 1 |}.
Let ok_response : Response Z := workbook_response None.

Lemma reachable_selected_old :
  reachable Z_truthy Z_text {| app := selected_old; in_flight := 0 |}.
Proof.
  exact (reach_step Z Z_truthy Z_text mounted _ (reach_mounted Z Z_truthy Z_text)
           (step_change Z Z_truthy Z_text mounted (Some old_report) eq_refl)).
Qed.

Lemma reachable_uploading_old : reachable Z_truthy Z_text uploading_page.
Proof.
  exact (reach_step Z Z_truthy Z_text _ _ reachable_selected_old
           (step_submit Z Z_truthy Z_text {| app := selected_old; in_flight := 0 |}
              eq_refl)).
Qed.

Lemma reachable_downloaded :
  reachable Z_truthy Z_text
    {| app := fst (handleSubmit_settle Z_truthy Z_text 7 (Returned ok_response)
                     uploading_old);
       in_flight := 0 |}.
Proof.
  exact (reach_step Z Z_truthy Z_text _ _ reachable_uploading_old
           (step_settle Z Z_truthy Z_text uploading_page 7 (Returned ok_response) 0
              eq_refl)).
Qed.

Lemma submit_with_file_witness :
  exists rest,
    snd (handleSubmit Z_truthy Z_text 7 (Returned ok_response) selected_old)
    = Fetch "/api/v1/files/xbrl-to-excel" "POST" "file" old_report :: rest.
Proof.
  destruct (submit_with_file Z Z_truthy Z_text 7 (Returned ok_response)
              selected_old old_report eq_refl) as (rest & H & _).
  exists rest. exact H.
Defined.

Lemma transport_failure_witness :
  error (fst (handleSubmit Z_truthy Z_text 7 (Throws (ThrownError "Failed to fetch"))
                selected_old))
  = error_of "Failed to fetch".
Proof.
  exact (proj1 (proj2 (transport_failure Z Z_truthy Z_text 7
                         (ThrownError "Failed to fetch") selected_old old_report
                         eq_refl))).
Defined.

Lemma download_iff_success_witness :
  state (fst (handleSubmit Z_truthy Z_text 7 (Returned ok_response) selected_old))
  = Success.
Proof.
  destruct (download_iff_success Z Z_truthy Z_text 7 (Returned ok_response)
              selected_old old_report eq_refl) as (_ & Hiff & _).
  apply Hiff. exists ok_response, workbook. repeat split.
Defined.

Lemma rejection_message_not_empty_witness :
  exists m,
    error (fst (handleSubmit_settle Z_truthy Z_text 0
                  (Returned (json_response 422 (JObject [("detail", JNumber 7%Z)])))
                  uploading_old))
    = error_of m
    /\ JsString.truthy m = true.
Proof.
  exact (rejection_message_not_empty Z Z_truthy Z_text 0
           (json_response 422 (JObject [("detail", JNumber 7%Z)])) uploading_old
           Z_text_truthy eq_refl).
Defined.

Lemma success_message_alone_witness :
  View.shows_error
    (fst (handleSubmit_settle Z_truthy Z_text 7 (Returned ok_response) uploading_old))
  && View.shows_success
       (fst (handleSubmit_settle Z_truthy Z_text 7 (Returned ok_response) uploading_old))
  = false.
Proof.
  exact (proj1 (success_message_alone Z Z_truthy Z_text _ reachable_downloaded)).
Defined.

Lemma quiet_while_uploading_witness :
  View.shows_error uploading_old = false /\ View.shows_success uploading_old = false.
Proof.
  exact (quiet_while_uploading Z Z_truthy Z_text uploading_page
           reachable_uploading_old eq_refl).
Defined.

Lemma requests_carry_checked_files_witness :
  selectedFile selected_old = Some old_report
  /\ extension_ok (name old_report) = true
  /\ (size old_report <= 15 * 1024 * 1024)%N.
Proof.
  exact (requests_carry_checked_files Z Z_truthy Z_text
           {| app := selected_old; in_flight := 0 |} reachable_selected_old
           "/api/v1/files/xbrl-to-excel" "POST" "file" old_report
           (or_introl eq_refl)).
Defined.

Lemma idle_never_reentered_witness : state initial = Idle.
Proof.
  exact (idle_never_reentered Z Z_truthy Z_text mounted
           {| app := selected_old; in_flight := 0 |}
           (step_change Z Z_truthy Z_text mounted (Some old_report) eq_refl)
           eq_refl).
Defined.

End MoreExamples.

Section MoreTrailExamples.

Import Trail Samples.
Local Open Scope R_scope.

Let origin : Target binary64 :=
  {| target_x := dec binary64 0 0; target_y := dec binary64 0 0; active := true |}.
Let resting_inactive : Target exact :=
  {| target_x := 100; target_y := 50; active := false |}.
Let head_reset : list (TrailPoint binary64) :=
  assign settled 0 {| x := dec binary64 0 0; y := dec binary64 0 0;
                      opacity := dec binary64 0 0 |}.

Lemma opacity_ignores_positions_witness :
  option_map (map opacity) (animate binary64 pointer (initial_trail binary64))
  = option_map (map opacity) (animate binary64 origin (initial_trail binary64)).
Proof.
  exact (opacity_ignores_positions binary64 pointer origin
           (initial_trail binary64) (initial_trail binary64) eq_refl eq_refl).
Defined.

Lemma tail_does_not_move_head_witness :
  option_map (fun next => nth_error next 0)
    (animate binary64 pointer (initial_trail binary64))
  = option_map (fun next => nth_error next 0) (animate binary64 pointer head_reset).
Proof.
  exact (tail_does_not_move_head binary64 pointer (initial_trail binary64)
           head_reset 0 eq_refl eq_refl (le_n_S 0 5 (le_0_n 5)) eq_refl).
Defined.

Lemma inactive_fades_exact_witness :
  Un_cv (fun n => at_frame exact opacity resting_inactive (initial_trail exact) n 5) 0.
Proof.
  exact (proj1 (inactive_fades_exact resting_inactive (initial_trail exact) 5
                  eq_refl eq_refl (le_n 6))).
Defined.

Lemma head_closed_form_exact_witness :
  at_frame exact x resting (initial_trail exact) 3 0
  = 100 + (at_frame exact x resting (initial_trail exact) 0 0 - 100) * 0.8 ^ 3.
Proof.
  exact (proj1 (head_closed_form_exact resting (initial_trail exact) 3 eq_refl)).
Defined.

Lemma opacity_range_exact_witness :
  0 <= at_frame exact opacity resting (initial_trail exact) 9 5 <= 1.
Proof.
  apply (opacity_range_exact resting (initial_trail exact) 9 5 eq_refl (le_n 6)).
  unfold at_frame. simpl. change (10 ^ Z.of_nat 0)%Z with 1%Z. lra.
Defined.

Lemma opacity_goals_binary64_witness :
  PrimFloat.ltb (dec binary64 0 0) (opacityTarget binary64 pointer 5) = true.
Proof.
  exact (proj1 (opacity_goals_binary64 pointer 5 eq_refl (le_n 6))).
Defined.

End MoreTrailExamples.

(** ** Where the claims on the content kind and on monotone motion fail *)

Section ContentKind.

Import Json JsString Upload Samples.

(** C3 fails on a response with status 500, the plain-text body
    [internal error] and the header
    [Content-Type: text/plain; note=application/json].  The kind it
    declares is [text/plain], not JSON, and the claim surfaces the body.
    The code finds [application/json] in the header, takes the JSON
    branch, [response.json()] throws, and the generic message is shown. *)
Lemma content_kind_counterexample :
  Declared.media_type (contentType mislabelled_response) = "text/plain"
  /\ Declared.declares_json mislabelled_response = false
  /\ text mislabelled_response = Returned "internal error"
  /\ Declared.text_message mislabelled_response "internal error" = "internal error"
  /\ includes (contentType mislabelled_response) "application/json" = true
  /\ handleSubmit_settle Z_truthy Z_text 0 (Returned mislabelled_response) uploading_old
     = (setState Error
          (setError (error_of "Failed to convert XBRL file (status 500)")
             uploading_old),
        [ConsoleWarn; ConsoleError]).
Proof. repeat split. Qed.

End ContentKind.

Section Crossing.

Import Trail Samples.
Local Open Scope R_scope.

Lemma ease_follow_exact (i : nat) : ease exact (S i) = 0.24.
Proof. unfold ease. simpl. change (10 ^ Z.of_nat 2)%Z with 100%Z. lra. Qed.

Let head (n : nat) : R := at_frame exact x resting crossing n 0.
Let follower (n : nat) : R := at_frame exact x resting crossing n 1.

(** The first five frames of [crossing] under the resting pointer. *)
Lemma crossing_frames :
  head 3 = 48.8 /\ head 4 = 59.04 /\ head 5 = 67.232
  /\ follower 3 = 60.55872 /\ follower 4 = 60.1942272
  /\ follower 5 = 61.883292672.
Proof.
  assert (Hlen : List.length crossing = TRAIL_LENGTH) by reflexivity.
  assert (H0 : (0 < TRAIL_LENGTH)%nat) by (unfold TRAIL_LENGTH; lia).
  assert (H1 : (1 < TRAIL_LENGTH)%nat) by (unfold TRAIL_LENGTH; lia).
  assert (Hh : forall n, head (S n) = head n + (100 - head n) * 0.2).
  { intros n. unfold head.
    rewrite (proj1 (position_step resting crossing Hlen n 0 H0)), ease_head_exact.
    reflexivity. }
  assert (Hf : forall n, follower (S n) = follower n + (head (S n) - follower n) * 0.24).
  { intros n. unfold follower, head.
    rewrite (proj1 (position_step resting crossing Hlen n 1 H1)), ease_follow_exact.
    reflexivity. }
  assert (Hh0 : head 0 = 0) by reflexivity.
  assert (Hf0 : follower 0 = 90) by reflexivity.
  pose proof (Hh 0%nat) as Hh1. pose proof (Hh 1%nat) as Hh2.
  pose proof (Hh 2%nat) as Hh3. pose proof (Hh 3%nat) as Hh4.
  pose proof (Hh 4%nat) as Hh5.
  pose proof (Hf 0%nat) as Hf1. pose proof (Hf 1%nat) as Hf2.
  pose proof (Hf 2%nat) as Hf3. pose proof (Hf 3%nat) as Hf4.
  pose proof (Hf 4%nat) as Hf5.
  repeat split; lra.
Qed.

(** C9 fails.  In exact arithmetic, on [crossing] with the pointer resting
    at (100, 50) and active: the second point moves down from frame 3 to
    frame 4 and up from frame 4 to frame 5, its distance to its lead (the
    head) is larger at frame 5 than at frame 4, and the head, behind it at
    frame 4, is ahead of it at frame 5.  So a follower does not approach
    its lead monotonically from frame to frame.  In binary64, the run from
    the mounted trail is constant from frame 192 on, short of the limits
    that the claim gives for the opacity and for the position. *)
Lemma trail_not_monotone_counterexample :
  (follower 4 < follower 3 /\ follower 4 < follower 5)
  /\ Rabs (lead_at exact target_x x resting crossing 3 1 - follower 4)
     < Rabs (lead_at exact target_x x resting crossing 4 1 - follower 5)
  /\ (head 4 < follower 4 /\ follower 5 < head 5)
  /\ ((forall n, frames binary64 (192 + n) pointer (initial_trail binary64)
                 = Some settled)
      /\ exists first second,
           nth_error settled 0 = Some first /\ nth_error settled 1 = Some second
           /\ PrimFloat.ltb (opacity first) (opacityTarget binary64 pointer 0) = true
           /\ PrimFloat.ltb (x first) (target_x pointer) = true
           /\ PrimFloat.ltb (x second) (x first) = true).
Proof.
  destruct crossing_frames as (H3 & H4 & H5 & F3 & F4 & F5).
  split; [split; lra |]. split.
  - change (lead_at exact target_x x resting crossing 3 1) with (head 4).
    change (lead_at exact target_x x resting crossing 4 1) with (head 5).
    rewrite Rabs_left by lra. rewrite Rabs_right by lra. lra.
  - split; [split; lra | exact binary64_trail_settles].
Qed.

End Crossing.
